(** * X.509 GeneralName values: a shallow embedding of
      [cryptography/x509/general_name.py]

    The module defines seven value classes behind one [GeneralName]
    interface, a table of the RFC 5280 context tags, and one helper,
    [_idna_encode].  Construction validates the kind of the argument,
    may call three outside libraries ([idna], [email.utils.parseaddr],
    [urllib_parse]) and may emit deprecation warnings.

    Python text is a list of Unicode code points, a byte string a list of
    [byte].  A computation yields the events it produced (warnings and
    calls into the IDNA codec, in program order) together with either the
    exception it raised or its value. *)

From Stdlib Require Import ZArith NArith List Ascii String Lia Bool DecimalString.
From Stdlib.Strings Require Import Byte.
From stdpp Require Import base gmap strings list option.

Open Scope N_scope.

(** ** Text, byte strings and the ASCII codec *)

Definition text := list N.
Definition bytes := list byte.

#[global] Instance byte_eq_dec : EqDecision byte := Byte.byte_eq_dec.

(** A text literal whose characters are all ASCII. *)
Definition u (s : string) : text := map N_of_ascii (list_ascii_of_string s).

(** A bytes literal. *)
Definition b (s : string) : bytes := list_byte_of_string s.

(** [s.startswith(prefix)], on either kind of sequence. *)
Fixpoint startswith {A} `{EqDecision A} (prefix s : list A) : bool :=
  match prefix, s with
  | [], _ => true
  | p :: prefix', c :: s' => if decide (p = c) then startswith prefix' s' else false
  | _ :: _, [] => false
  end.

(** [s.split(sep)] for a separator of one character: always at least one
    part, and one more part than there are separators. *)
Fixpoint split (sep : N) (s : text) : list text :=
  match s with
  | [] => [[]]
  | c :: s' =>
      if c =? sep then [] :: split sep s'
      else match split sep s' with
           | part :: parts => (c :: part) :: parts
           | [] => [[c]]
           end
  end.

(** Truthiness of a sequence: empty is false. *)
Definition truthy {A} (s : list A) : bool :=
  match s with [] => false | _ => true end.

(** ** Exceptions

    [UnicodeEncodeError], [UnicodeDecodeError] and [idna.IDNAError] are
    subclasses of [UnicodeError], itself a subclass of [ValueError]. *)

Inductive exn :=
| TypeError (msg : string)
| ValueError (msg : string)
| UnicodeEncodeError
| UnicodeDecodeError
| IDNAError
| IndexError.

(** [isinstance(e, TypeError)]: the error the specification calls
    InvalidType. *)
Definition is_TypeError (e : exn) : bool :=
  match e with TypeError _ => true | _ => false end.

(** [isinstance(e, ValueError)]: the error the specification calls
    InvalidValue; the encoding errors are instances of it. *)
Definition is_ValueError (e : exn) : bool :=
  match e with
  | ValueError _ | UnicodeEncodeError | UnicodeDecodeError | IDNAError => true
  | TypeError _ | IndexError => false
  end.

(** [t.encode("ascii")] *)
Fixpoint encode_ascii (t : text) : exn + bytes :=
  match t with
  | [] => inr []
  | c :: t' =>
      if c <? 128 then
        match Byte.of_N c, encode_ascii t' with
        | Some x, inr r => inr (x :: r)
        | _, _ => inl UnicodeEncodeError
        end
      else inl UnicodeEncodeError
  end.

(** [d.decode("ascii")] *)
Fixpoint decode_ascii (d : bytes) : exn + text :=
  match d with
  | [] => inr []
  | x :: d' =>
      if Byte.to_N x <? 128 then
        match decode_ascii d' with
        | inr r => inr (Byte.to_N x :: r)
        | inl e => inl e
        end
      else inl UnicodeDecodeError
  end.

(** [str(n)] for an integer: its decimal digits. *)
Definition format_int (n : Z) : text := u (NilZero.string_of_int (Z.to_int n)).

(** ** Events and computations *)

Inductive warning_category := DeprecatedIn21.

Inductive event :=
| Warn (category : warning_category) (msg : string)
| IdnaEncodeCall (arg : text)
| IdnaDecodeCall (arg : bytes).

Definition M (A : Type) : Type := list event * (exn + A).

Definition raise {A} (e : exn) : M A := ([], inl e).
Definition emit (ev : event) : M unit := ([ev], inr tt).
Definition lift {A} (r : exn + A) : M A := ([], r).

#[global] Instance M_ret : MRet M := fun A a => ([], inr a).

#[global] Instance M_bind : MBind M := fun A B k m =>
  match m with
  | (evs, inl e) => (evs, inl e)
  | (evs, inr a) => let '(evs', r) := k a in (evs ++ evs', r)
  end.

(** The events of a computation, and how it ended. *)
Definition trace {A} (m : M A) : list event := fst m.
Definition outcome {A} (m : M A) : exn + A := snd m.

(** [warnings.warn(msg, category, stacklevel=2)] *)
Definition warn (msg : string) (category : warning_category) : M unit :=
  emit (Warn category msg).

(** The IDNA calls a computation made, projected from its events. *)
Definition encoder_calls (evs : list event) : list text :=
  omap (fun ev => match ev with IdnaEncodeCall a => Some a | _ => None end) evs.
Definition decoder_calls (evs : list event) : list bytes :=
  omap (fun ev => match ev with IdnaDecodeCall a => Some a | _ => None end) evs.
Definition warnings (evs : list event) : list warning_category :=
  omap (fun ev => match ev with Warn c _ => Some c | _ => None end) evs.

(** ** The outside world

    Types and functions the module imports.  [Name] and
    [ObjectIdentifier] come from sibling modules of the package, the
    address kinds from [ipaddress]; the module only tests their kind and
    compares them with [==]. *)

Class ExternalTypes := {
  Name : Type;
  ObjectIdentifier : Type;
  IPv4Address : Type;
  IPv6Address : Type;
  IPv4Network : Type;
  IPv6Network : Type;
  (** [a == b] on object identifiers *)
  oid_eq : ObjectIdentifier -> ObjectIdentifier -> bool;
}.

(** What [urllib_parse.urlparse] exposes of a URL.  [hostname] is [None]
    when the URL has none; reading [port] gives [None], an integer, or
    raises [ValueError]. *)
Inductive port_result := PortNone | PortInt (p : Z) | PortInvalid.

Record ParseResult := {
  scheme : text;
  netloc : text;
  path : text;
  params : text;
  query : text;
  fragment : text;
  hostname : option text;
  port : port_result;
}.

(** The library functions.  [idna.encode] and [idna.decode] either return
    or raise an error of the [UnicodeError] family ([idna.IDNAError] and
    its subclasses), for which the model has the one constructor
    [IDNAError]; [parseaddr] returns the pair (display name, address) and
    never raises. *)
Class Libraries := {
  idna_encode : text -> option bytes;
  idna_decode : bytes -> option text;
  parseaddr : text -> text * text;
  urlparse : text -> exn + ParseResult;
  urlunparse : text * text * text * text * text * text -> text;
}.

(** ** The module *)

(** [_GENERAL_NAMES] *)
Definition _GENERAL_NAMES : gmap Z string :=
  <[0%Z := "otherName"]> (
  <[1%Z := "rfc822Name"]> (
  <[2%Z := "dNSName"]> (
  <[3%Z := "x400Address"]> (
  <[4%Z := "directoryName"]> (
  <[5%Z := "ediPartyName"]> (
  <[6%Z := "uniformResourceIdentifier"]> (
  <[7%Z := "iPAddress"]> (
  <[8%Z := "registeredID"]> ∅)))))))).

(** [class UnsupportedGeneralNameType(Exception)]: only defined here,
    raised by the decoder. *)
Record UnsupportedGeneralNameType := {
  unsupported_msg : string;
  unsupported_type : Z;
}.

Section GeneralName.
Context {X : ExternalTypes} {L : Libraries}.

(** One of the four kinds [IPAddress] accepts. *)
Inductive ip_value :=
| IPv4AddressValue (a : IPv4Address)
| IPv6AddressValue (a : IPv6Address)
| IPv4NetworkValue (n : IPv4Network)
| IPv6NetworkValue (n : IPv6Network).

(** The values a caller can hand to a constructor, by kind. *)
Inductive pyobj :=
| PyText (t : text)
| PyBytes (d : bytes)
| PyName (n : Name)
| PyObjectIdentifier (o : ObjectIdentifier)
| PyIP (a : ip_value)
| PyInt (n : Z)
| PyNone.

(** Calls into the codec, recorded as events. *)
Definition call_idna_encode (t : text) : M bytes :=
  emit (IdnaEncodeCall t);;
  match idna_encode t with
  | Some r => mret r
  | None => raise IDNAError
  end.

Definition call_idna_decode (d : bytes) : M text :=
  emit (IdnaDecodeCall d);;
  match idna_decode d with
  | Some r => mret r
  | None => raise IDNAError
  end.

(** [parts[i]] *)
Definition getitem (parts : list text) (i : nat) : M text :=
  match parts !! i with
  | Some p => mret p
  | None => raise IndexError
  end.

(** *** RFC822Name *)

Record RFC822Name := {
  RFC822Name_value : text;
  RFC822Name_encoded : bytes;
}.

(** [RFC822Name.__init__] *)
Definition RFC822Name_init (value : pyobj) : M RFC822Name :=
  match value with
  | PyText v =>
      let '(name, address) := parseaddr v in
      let parts := split 64 address in
      if truthy name || negb (truthy address) then
        raise (ValueError "Invalid rfc822name value")
      else if (length parts =? 1)%nat then
        encoded ← lift (encode_ascii address);
        mret {| RFC822Name_value := v; RFC822Name_encoded := encoded |}
      else
        p0 ← getitem parts 0;
        local ← lift (encode_ascii p0);
        p1 ← getitem parts 1;
        domain ← call_idna_encode p1;
        mret {| RFC822Name_value := v;
                RFC822Name_encoded := local ++ b "@" ++ domain |}
  | _ => raise (TypeError "value must be a unicode string")
  end.

(** *** DNSName *)

(** [_idna_encode]: the loop over the two prefixes, first ["*."] then
    ["."]. *)
Fixpoint _idna_encode_prefixes (prefixes : list text) (value : text) : M bytes :=
  match prefixes with
  | [] => call_idna_encode value
  | prefix :: prefixes' =>
      if startswith prefix value then
        let value := drop (length prefix) value in
        p ← lift (encode_ascii prefix);
        e ← call_idna_encode value;
        mret (p ++ e)
      else _idna_encode_prefixes prefixes' value
  end.

Definition _idna_encode (value : text) : M bytes :=
  _idna_encode_prefixes [u "*."; u "."] value.

Record DNSName := {
  DNSName_bytes_value : bytes;
}.

(** [DNSName.__init__] *)
Definition DNSName_init (value : pyobj) : M DNSName :=
  match value with
  | PyText v =>
      match encode_ascii v with
      | inr value =>
          warn "DNSName values should be passed as bytes, not strings. Support for passing unicode strings will be removed in a future version." DeprecatedIn21;;
          mret {| DNSName_bytes_value := value |}
      | inl _ =>
          value ← _idna_encode v;
          warn "DNSName values should be passed as idna-encoded bytes, not strings. Support for passing unicode strings will be removed in a future version." DeprecatedIn21;;
          mret {| DNSName_bytes_value := value |}
      end
  | PyBytes value => mret {| DNSName_bytes_value := value |}
  | _ => raise (TypeError "value must be bytes")
  end.

(** [DNSName.value], the legacy accessor *)
Definition DNSName_value (self : DNSName) : M text :=
  warn "DNSName.bytes_value should be used instead of DNSName.value; it contains the DNS name as raw bytes, instead of as an idna-decoded unicode string. DNSName.value will be removed in a future version." DeprecatedIn21;;
  let data := DNSName_bytes_value self in
  if negb (truthy data) then mret (u "")
  else if startswith (b "*.") data then
    d ← call_idna_decode (drop 2 data);
    mret (u "*." ++ d)
  else
    decoded ← call_idna_decode data;
    if startswith (b ".") data then mret (u "." ++ decoded)
    else mret decoded.

(** *** UniformResourceIdentifier *)

Record UniformResourceIdentifier := {
  UniformResourceIdentifier_value : text;
  UniformResourceIdentifier_encoded : bytes;
}.

(** Reading [parsed.port] *)
Definition read_port (parsed : ParseResult) : M (option Z) :=
  match port parsed with
  | PortNone => mret None
  | PortInt p => mret (Some p)
  | PortInvalid => raise (ValueError "Port out of range 0-65535")
  end.

(** Truthiness of [parsed.hostname] and of [parsed.port]: [None], the
    empty text and the integer zero are false. *)
Definition truthy_hostname (h : option text) : bool :=
  match h with Some h => truthy h | None => false end.
Definition truthy_port (p : option Z) : bool :=
  match p with Some p => negb (p =? 0)%Z | None => false end.

(** The [if]/[elif]/[else] of [UniformResourceIdentifier.__init__] that
    rebuilds the network location. *)
Definition encoded_netloc (parsed : ParseResult) : M text :=
  if negb (truthy_hostname (hostname parsed)) then mret (u "")
  else
    p ← read_port parsed;
    if truthy_port p then
      h ← call_idna_encode (default [] (hostname parsed));
      p ← read_port parsed;
      suffix ← lift (encode_ascii (u ":" ++ format_int (default 0%Z p)));
      lift (decode_ascii (h ++ suffix))
    else
      h ← call_idna_encode (default [] (hostname parsed));
      lift (decode_ascii h).

(** [UniformResourceIdentifier.__init__] *)
Definition UniformResourceIdentifier_init (value : pyobj)
  : M UniformResourceIdentifier :=
  match value with
  | PyText v =>
      parsed ← lift (urlparse v);
      netloc ← encoded_netloc parsed;
      uri ← lift (encode_ascii (urlunparse
               (scheme parsed, netloc, path parsed,
                params parsed, query parsed, fragment parsed)));
      mret {| UniformResourceIdentifier_value := v;
              UniformResourceIdentifier_encoded := uri |}
  | _ => raise (TypeError "value must be a unicode string")
  end.

(** *** DirectoryName, RegisteredID, IPAddress *)

Record DirectoryName := { DirectoryName_value : Name }.

Definition DirectoryName_init (value : pyobj) : M DirectoryName :=
  match value with
  | PyName n => mret {| DirectoryName_value := n |}
  | _ => raise (TypeError "value must be a Name")
  end.

Record RegisteredID := { RegisteredID_value : ObjectIdentifier }.

Definition RegisteredID_init (value : pyobj) : M RegisteredID :=
  match value with
  | PyObjectIdentifier o => mret {| RegisteredID_value := o |}
  | _ => raise (TypeError "value must be an ObjectIdentifier")
  end.

Record IPAddress := { IPAddress_value : ip_value }.

Definition IPAddress_init (value : pyobj) : M IPAddress :=
  match value with
  | PyIP a => mret {| IPAddress_value := a |}
  | _ => raise (TypeError "value must be an instance of ipaddress.IPv4Address, ipaddress.IPv6Address, ipaddress.IPv4Network, or ipaddress.IPv6Network")
  end.

(** *** OtherName *)

Record OtherName := {
  OtherName_type_id : ObjectIdentifier;
  OtherName_value : bytes;
}.

Definition OtherName_init (type_id value : pyobj) : M OtherName :=
  match type_id with
  | PyObjectIdentifier o =>
      match value with
      | PyBytes d => mret {| OtherName_type_id := o; OtherName_value := d |}
      | _ => raise (TypeError "value must be a binary string")
      end
  | _ => raise (TypeError "type_id must be an ObjectIdentifier")
  end.

(** *** Equality

    Every instance of the [GeneralName] interface this module can build;
    [__eq__] answers [NotImplemented] for an operand of another class. *)

Inductive general_name :=
| IsRFC822Name (n : RFC822Name)
| IsDNSName (n : DNSName)
| IsUniformResourceIdentifier (n : UniformResourceIdentifier)
| IsDirectoryName (n : DirectoryName)
| IsRegisteredID (n : RegisteredID)
| IsIPAddress (n : IPAddress)
| IsOtherName (n : OtherName).

Inductive eq_result := Equal (r : bool) | NotImplemented.

Definition RFC822Name_eq (self : RFC822Name) (other : general_name) : eq_result :=
  match other with
  | IsRFC822Name other =>
      Equal (bool_decide (RFC822Name_value self = RFC822Name_value other))
  | _ => NotImplemented
  end.

Definition DNSName_eq (self : DNSName) (other : general_name) : eq_result :=
  match other with
  | IsDNSName other =>
      Equal (bool_decide (DNSName_bytes_value self = DNSName_bytes_value other))
  | _ => NotImplemented
  end.

Definition UniformResourceIdentifier_eq (self : UniformResourceIdentifier)
    (other : general_name) : eq_result :=
  match other with
  | IsUniformResourceIdentifier other =>
      Equal (bool_decide (UniformResourceIdentifier_value self
                          = UniformResourceIdentifier_value other))
  | _ => NotImplemented
  end.

Definition OtherName_eq (self : OtherName) (other : general_name) : eq_result :=
  match other with
  | IsOtherName other =>
      Equal (oid_eq (OtherName_type_id self) (OtherName_type_id other)
             && bool_decide (OtherName_value self = OtherName_value other))
  | _ => NotImplemented
  end.

End GeneralName.

(** ** The other comparison methods, and hashing

    [__eq__] of [DirectoryName], [RegisteredID] and [IPAddress] compares
    the stored values with [==] of their own classes.  Every class defines
    [__ne__] as [not self == other], which goes through the [==] operator
    of the language.  [RFC822Name] and [UniformResourceIdentifier] define
    [__hash__] as the hash of the logical value. *)

Section Comparison.
Context {X : ExternalTypes}.

(** [==] on distinguished names and on address values, and the built-in
    [hash] on text *)
Variable name_eq : Name -> Name -> bool.
Variable ip_eq : ip_value -> ip_value -> bool.
Variable hash : text -> Z.

Definition DirectoryName_eq (self : DirectoryName) (other : general_name)
  : eq_result :=
  match other with
  | IsDirectoryName other =>
      Equal (name_eq (DirectoryName_value self) (DirectoryName_value other))
  | _ => NotImplemented
  end.

Definition RegisteredID_eq (self : RegisteredID) (other : general_name)
  : eq_result :=
  match other with
  | IsRegisteredID other =>
      Equal (oid_eq (RegisteredID_value self) (RegisteredID_value other))
  | _ => NotImplemented
  end.

Definition IPAddress_eq (self : IPAddress) (other : general_name) : eq_result :=
  match other with
  | IsIPAddress other =>
      Equal (ip_eq (IPAddress_value self) (IPAddress_value other))
  | _ => NotImplemented
  end.

(** [self.__eq__(other)], by the class of [self] *)
Definition general_name_eq (self other : general_name) : eq_result :=
  match self with
  | IsRFC822Name n => RFC822Name_eq n other
  | IsDNSName n => DNSName_eq n other
  | IsUniformResourceIdentifier n => UniformResourceIdentifier_eq n other
  | IsDirectoryName n => DirectoryName_eq n other
  | IsRegisteredID n => RegisteredID_eq n other
  | IsIPAddress n => IPAddress_eq n other
  | IsOtherName n => OtherName_eq n other
  end.

(** [a == b]: the answer of [a.__eq__(b)]; if that is [NotImplemented],
    the answer of the reflected [b.__eq__(a)]; if that is too, whether the
    operands are the same object, which two instances that do not
    recognise each other's class are not. *)
Definition py_eq (a c : general_name) : bool :=
  match general_name_eq a c with
  | Equal r => r
  | NotImplemented =>
      match general_name_eq c a with
      | Equal r => r
      | NotImplemented => false
      end
  end.

(** [__ne__], the same in all seven classes: [not self == other] *)
Definition general_name_ne (self other : general_name) : bool :=
  negb (py_eq self other).

(** [RFC822Name.__hash__] and [UniformResourceIdentifier.__hash__] *)
Definition RFC822Name_hash (self : RFC822Name) : Z :=
  hash (RFC822Name_value self).

Definition UniformResourceIdentifier_hash (self : UniformResourceIdentifier) : Z :=
  hash (UniformResourceIdentifier_value self).

End Comparison.

(** The class of an instance. *)
Inductive variant :=
| VRFC822Name | VDNSName | VUniformResourceIdentifier | VDirectoryName
| VRegisteredID | VIPAddress | VOtherName.

Definition class_of {X : ExternalTypes} (g : general_name) : variant :=
  match g with
  | IsRFC822Name _ => VRFC822Name
  | IsDNSName _ => VDNSName
  | IsUniformResourceIdentifier _ => VUniformResourceIdentifier
  | IsDirectoryName _ => VDirectoryName
  | IsRegisteredID _ => VRegisteredID
  | IsIPAddress _ => VIPAddress
  | IsOtherName _ => VOtherName
  end.

(** The three classes whose [__eq__] compares text or bytes. *)
Definition text_like (c : variant) : bool :=
  match c with
  | VRFC822Name | VDNSName | VUniformResourceIdentifier => true
  | _ => false
  end.

(** A byte string of ASCII bytes only. *)
Definition ascii_bytes (d : bytes) : Prop :=
  Forall (fun x => Byte.to_N x < 128) d.

(** ** A reference instance of the libraries

    Executable stand-ins for the imported functions, used to run the
    constructors on concrete inputs.  [Punycode] is RFC 3492 (the
    [punycode] codec behind [idna]); [RefIdna] follows [idna.core] of the
    2.x releases this revision runs against, with the code-point tables cut
    down to letters, digits, hyphen and the Latin-1 lower-case letters;
    [RefEmail] and [RefUrl] cover the plain address and URL shapes. *)

Module Punycode.

Definition base := 36.
Definition tmin := 1.
Definition tmax := 26.
Definition skew := 38.
Definition damp := 700.
Definition initial_bias := 72.
Definition initial_n := 128.

Fixpoint adapt_loop (fuel : nat) (delta k : N) : N * N :=
  match fuel with
  | O => (delta, k)
  | S fuel' =>
      if ((base - tmin) * tmax) / 2 <? delta
      then adapt_loop fuel' (delta / (base - tmin)) (k + base)
      else (delta, k)
  end.

Definition adapt (delta numpoints : N) (firsttime : bool) : N :=
  let delta := if firsttime then delta / damp else delta / 2 in
  let delta := delta + delta / numpoints in
  let '(delta, k) := adapt_loop 64 delta 0 in
  k + ((base - tmin + 1) * delta) / (delta + skew).

Definition threshold (k bias : N) : N :=
  if k <=? bias then tmin
  else if bias + tmax <=? k then tmax
  else k - bias.

(** digit values 0..25 are a..z, 26..35 are 0..9 *)
Definition encode_digit (d : N) : N :=
  if d <? 26 then d + 97 else d + 22.

Definition decode_digit (c : N) : option N :=
  if (48 <=? c) && (c <=? 57) then Some (c - 22)
  else if (65 <=? c) && (c <=? 90) then Some (c - 65)
  else if (97 <=? c) && (c <=? 122) then Some (c - 97)
  else None.

(** a generalized variable-length integer, least significant digit first *)
Fixpoint encode_integer (fuel : nat) (q k bias : N) : list N :=
  match fuel with
  | O => []
  | S fuel' =>
      let t := threshold k bias in
      if q <? t then [encode_digit q]
      else encode_digit (t + (q - t) mod (base - t))
           :: encode_integer fuel' ((q - t) / (base - t)) (k + base) bias
  end.

Record enc_state := {
  e_delta : N; e_bias : N; e_h : N; e_out : list N;
}.

(** one pass over the input for the current code point [n] *)
Fixpoint encode_pass (input : list N) (n nbasic : N) (st : enc_state) : enc_state :=
  match input with
  | [] => st
  | c :: rest =>
      if c <? n then
        encode_pass rest n nbasic
          {| e_delta := e_delta st + 1; e_bias := e_bias st;
             e_h := e_h st; e_out := e_out st |}
      else if c =? n then
        encode_pass rest n nbasic
          {| e_delta := 0;
             e_bias := adapt (e_delta st) (e_h st + 1) (e_h st =? nbasic);
             e_h := e_h st + 1;
             e_out := e_out st ++ encode_integer 64 (e_delta st) base (e_bias st) |}
      else encode_pass rest n nbasic st
  end.

(** the least code point of the input that is at least [n] *)
Definition next_code_point (input : list N) (n : N) : option N :=
  foldr (fun c acc =>
           if n <=? c then
             match acc with Some m => Some (N.min c m) | None => Some c end
           else acc) None input.

Fixpoint encode_loop (fuel : nat) (input : list N) (n nbasic : N)
    (st : enc_state) : list N :=
  match fuel with
  | O => e_out st
  | S fuel' =>
      if e_h st <? N.of_nat (length input) then
        match next_code_point input n with
        | None => e_out st
        | Some m =>
            let st := {| e_delta := e_delta st + (m - n) * (e_h st + 1);
                         e_bias := e_bias st; e_h := e_h st;
                         e_out := e_out st |} in
            let st := encode_pass input m nbasic st in
            encode_loop fuel' input (m + 1) nbasic
              {| e_delta := e_delta st + 1; e_bias := e_bias st;
                 e_h := e_h st; e_out := e_out st |}
        end
      else e_out st
  end.

(** [label.encode("punycode")], as code points of the ASCII result *)
Definition encode (input : list N) : list N :=
  let basic := filter (fun c => c < 128) input in
  let nbasic := N.of_nat (length basic) in
  let out := if truthy basic then basic ++ [45] else [] in
  encode_loop (length input) input initial_n nbasic
    {| e_delta := 0; e_bias := initial_bias; e_h := nbasic; e_out := out |}.

(** reads one integer; the rest of the input is returned with it *)
Fixpoint decode_integer (input : list N) (i w k bias : N) : option (N * list N) :=
  match input with
  | [] => None
  | c :: rest =>
      match decode_digit c with
      | None => None
      | Some digit =>
          let i := i + digit * w in
          let t := threshold k bias in
          if digit <? t then Some (i, rest)
          else decode_integer rest i (w * (base - t)) (k + base) bias
      end
  end.

Definition insert_at (i : nat) (c : N) (out : list N) : list N :=
  take i out ++ c :: drop i out.

Fixpoint decode_loop (fuel : nat) (input : list N) (n i bias : N)
    (out : list N) : option (list N) :=
  match fuel with
  | O => match input with [] => Some out | _ => None end
  | S fuel' =>
      match input with
      | [] => Some out
      | _ =>
          match decode_integer input i 1 base bias with
          | None => None
          | Some (i', rest) =>
              let len1 := N.of_nat (length out) + 1 in
              let bias := adapt (i' - i) len1 (i =? 0) in
              let n := n + i' / len1 in
              let i := i' mod len1 in
              decode_loop fuel' rest n (i + 1) bias (insert_at (N.to_nat i) n out)
          end
      end
  end.

(** splits at the last delimiter: the basic code points and the rest *)
Fixpoint split_last_delimiter (input : list N) : option (list N * list N) :=
  match input with
  | [] => None
  | c :: rest =>
      match split_last_delimiter rest with
      | Some (basic, ext) => Some (c :: basic, ext)
      | None => if c =? 45 then Some ([], rest) else None
      end
  end.

(** [label.decode("punycode")] *)
Definition decode (input : list N) : option (list N) :=
  let '(basic, ext) := default ([], input) (split_last_delimiter input) in
  if forallb (fun c => c <? 128) basic
  then decode_loop (length ext) ext initial_n 0 initial_bias basic
  else None.

End Punycode.

(** Helpers shared by the stand-ins. *)

(** ASCII lower-casing, one code point *)
Definition lower (c : N) : N :=
  if (65 <=? c) && (c <=? 90) then c + 32 else c.

(** [sep.join(parts)] *)
Fixpoint join (sep : text) (parts : list text) : text :=
  match parts with
  | [] => []
  | [p] => p
  | p :: parts' => p ++ sep ++ join sep parts'
  end.

(** [s.partition(c)]: the text before the first [c], and the text after
    it when there is one *)
Fixpoint partition (c : N) (s : text) : text * option text :=
  match s with
  | [] => ([], None)
  | x :: s' =>
      if x =? c then ([], Some s')
      else let '(before, after) := partition c s' in (x :: before, after)
  end.

Definition to_option {A} (r : exn + A) : option A :=
  match r with inr a => Some a | inl _ => None end.

Module RefIdna.

(** the label separators: U+002E, U+3002, U+FF0E, U+FF61 *)
Definition is_dot (c : N) : bool :=
  (c =? 46) || (c =? 12290) || (c =? 65294) || (c =? 65377).

Fixpoint split_dots (s : text) : list text :=
  match s with
  | [] => [[]]
  | c :: s' =>
      if is_dot c then [] :: split_dots s'
      else match split_dots s' with
           | part :: parts => (c :: part) :: parts
           | [] => [[c]]
           end
  end.

(** the code points taken as PVALID: a-z, 0-9, hyphen, U+00DF..U+00F6 and
    U+00F8..U+00FF *)
Definition pvalid (c : N) : bool :=
  ((97 <=? c) && (c <=? 122)) || ((48 <=? c) && (c <=? 57)) || (c =? 45)
  || ((223 <=? c) && (c <=? 246)) || ((248 <=? c) && (c <=? 255)).

Definition check_hyphen_ok (label : text) : bool :=
  negb (bool_decide (take 2 (drop 2 label) = u "--"))
  && negb (startswith [45] label)
  && negb (startswith [45] (rev label)).

Definition check_label (label : text) : bool :=
  truthy label && check_hyphen_ok label && forallb pvalid label.

Definition valid_label_length (label : text) : bool :=
  (length label <=? 63)%nat.

Definition valid_string_length (s : text) (trailing_dot : bool) : bool :=
  (length s <=? (if trailing_dot then 254 else 253))%nat.

(** [ulabel] on an ASCII label *)
Definition ulabel (label : text) : option text :=
  let label := map lower label in
  if startswith (u "xn--") label then
    match Punycode.decode (drop 4 label) with
    | Some l => if check_label l then Some l else None
    | None => None
    end
  else if check_label label then Some label else None.

Definition alabel (label : text) : option text :=
  if forallb (fun c => c <? 128) label then
    match ulabel label with
    | Some _ => if valid_label_length label then Some label else None
    | None => None
    end
  else if check_label label then
    let label := u "xn--" ++ Punycode.encode label in
    if valid_label_length label then Some label else None
  else None.

(** [while labels and not labels[0]: del labels[0]] *)
Fixpoint strip_leading_empty (labels : list text) : list text :=
  match labels with
  | [] :: labels' => strip_leading_empty labels'
  | _ => labels
  end.

(** the labels of a domain, the empty label after a final dot taken off
    and reported: [None] for the empty domain *)
Definition domain_labels (s : text) : option (list text * bool) :=
  match strip_leading_empty (split_dots s) with
  | [] => None
  | labels =>
      match rev labels with
      | [] :: front => Some (rev front, true)
      | _ => Some (labels, false)
      end
  end.

(** [idna.encode] *)
Definition encode (s : text) : option bytes :=
  '(labels, trailing_dot) ← domain_labels s;
  result ← mapM alabel labels;
  let result := if trailing_dot : bool then result ++ [[]] else result in
  let s := join (u ".") result in
  if valid_string_length s trailing_dot then to_option (encode_ascii s) else None.

(** [idna.decode] *)
Definition decode (s : bytes) : option text :=
  s ← to_option (decode_ascii s);
  '(labels, trailing_dot) ← domain_labels s;
  result ← mapM ulabel labels;
  let result := if trailing_dot : bool then result ++ [[]] else result in
  Some (join (u ".") result).

End RefIdna.

(** The decoder of the later [idna] releases (3.x): an empty label at the
    front is no longer dropped, so a name with a leading period is
    refused. *)
Module RefIdnaStrict.

Definition domain_labels (s : text) : option (list text * bool) :=
  match RefIdna.split_dots s with
  | [] | [[]] => None
  | labels =>
      match rev labels with
      | [] :: front => Some (rev front, true)
      | _ => Some (labels, false)
      end
  end.

(** [idna.decode] *)
Definition decode (s : bytes) : option text :=
  s ← to_option (decode_ascii s);
  '(labels, trailing_dot) ← domain_labels s;
  result ← mapM RefIdna.ulabel labels;
  let result := if trailing_dot : bool then result ++ [[]] else result in
  Some (join (u ".") result).

End RefIdnaStrict.

Module RefEmail.

(** [s.strip()] of spaces *)
Fixpoint lstrip (s : text) : text :=
  match s with
  | 32 :: s' => lstrip s'
  | _ => s
  end.
Definition strip (s : text) : text := rev (lstrip (rev (lstrip s))).

(** the characters RFC 2822 gives a meaning of their own, and the space *)
Definition special (c : N) : bool :=
  bool_decide (c ∈ u "()<>,;:\[] " ++ [34]).

(** [parseaddr] on the two plain shapes: [phrase <addr-spec>], and a bare
    addr-spec of ordinary characters with at most one ["@"].  Any other
    input is out of its range and gets [('', '')], the library's answer to
    what it cannot parse. *)
Definition parseaddr (value : text) : text * text :=
  let value := strip value in
  let plain (s : text) : bool :=
    forallb (fun c => negb (special c)) s && (length (split 64 s) <=? 2)%nat in
  match partition 60 value with
  | (phrase, Some rest) =>
      match partition 62 rest with
      | (address, Some []) =>
          if plain address && plain (filter (fun c => c <> 32) phrase)
          then (strip phrase, address) else ([], [])
      | _ => ([], [])
      end
  | (_, None) => if plain value then ([], value) else ([], [])
  end.

End RefEmail.

(** [parseaddr] with one more shape: a local part that is a quoted string,
    which may hold an ["@"] of its own, as in ["a@b"@example.com].  The
    address comes back with its quotes. *)
Definition parseaddr_quoted (value : text) : text * text :=
  match value with
  | 34 :: rest =>
      match partition 34 rest with
      | (quoted, Some (64 :: domain)) =>
          if forallb (fun c => negb (c =? 92)) quoted
             && truthy domain
             && forallb (fun c => negb (RefEmail.special c) && negb (c =? 64)) domain
          then ([], value) else ([], [])
      | _ => ([], [])
      end
  | _ => RefEmail.parseaddr value
  end.

Module RefUrl.

Definition is_alpha (c : N) : bool :=
  ((65 <=? c) && (c <=? 90)) || ((97 <=? c) && (c <=? 122)).
Definition is_digit (c : N) : bool := (48 <=? c) && (c <=? 57).
Definition scheme_char (c : N) : bool :=
  is_alpha c || is_digit c || (c =? 43) || (c =? 45) || (c =? 46).

(** the longest prefix without a stop character, and what follows *)
Fixpoint span_until (stop : N -> bool) (s : text) : text * text :=
  match s with
  | [] => ([], [])
  | c :: s' =>
      if stop c then ([], s)
      else let '(before, after) := span_until stop s' in (c :: before, after)
  end.

(** [s.rpartition(c)[2]]: the text after the last [c] *)
Definition after_last (c : N) (s : text) : text :=
  match rev (split c s) with
  | part :: _ => part
  | [] => []
  end.

Definition split_scheme (url : text) : text * text :=
  match partition 58 url with
  | (s, Some rest) =>
      if truthy s && forallb is_alpha (take 1 s) && forallb scheme_char s
      then (map lower s, rest) else ([], url)
  | (_, None) => ([], url)
  end.

Definition split_netloc (url : text) : text * text :=
  if startswith (u "//") url
  then span_until (fun c => (c =? 47) || (c =? 63) || (c =? 35)) (drop 2 url)
  else ([], url).

(** [int(digits)] *)
Definition int_of_digits (digits : text) : Z :=
  fold_left (fun acc c => (acc * 10 + Z.of_N (c - 48))%Z) digits 0%Z.

Definition hostinfo (netloc : text) : text * option text :=
  partition 58 (after_last 64 netloc).

Definition hostname_of (netloc : text) : option text :=
  match fst (hostinfo netloc) with
  | [] => None
  | h => Some (map lower h)
  end.

Definition port_of (netloc : text) : port_result :=
  match snd (hostinfo netloc) with
  | None | Some [] => PortNone
  | Some digits =>
      if forallb is_digit digits then
        let p := int_of_digits digits in
        if (p <=? 65535)%Z then PortInt p else PortInvalid
      else PortInvalid
  end.

(** [urlparse] on URLs without [;parameters] and without a bracketed
    address literal *)
Definition urlparse (url : text) : exn + ParseResult :=
  let '(scheme, url) := split_scheme url in
  let '(netloc, url) := split_netloc url in
  let '(url, fragment) := partition 35 url in
  let '(url, query) := partition 63 url in
  inr {| scheme := scheme; netloc := netloc; path := url; params := [];
         query := default [] query; fragment := default [] fragment;
         hostname := hostname_of netloc; port := port_of netloc |}.

Definition uses_netloc : list text :=
  map u ["ftp"; "http"; "gopher"; "nntp"; "telnet"; "imap"; "wais"; "file";
         "mms"; "https"; "shttp"; "snews"; "prospero"; "rtsp"; "rtspu";
         "rsync"; "svn"; "svn+ssh"; "sftp"; "nfs"; "git"; "git+ssh"]%string.

Definition urlunsplit (parts : text * text * text * text * text) : text :=
  let '(scheme, netloc, url, query, fragment) := parts in
  let url :=
    if truthy netloc
       || (truthy scheme && bool_decide (scheme ∈ uses_netloc)
           && negb (startswith (u "//") url))
    then u "//" ++ netloc
         ++ (if truthy url && negb (startswith (u "/") url) then u "/" ++ url else url)
    else url in
  let url := if truthy scheme then scheme ++ u ":" ++ url else url in
  let url := if truthy query then url ++ u "?" ++ query else url in
  if truthy fragment then url ++ u "#" ++ fragment else url.

Definition urlunparse (parts : text * text * text * text * text * text) : text :=
  let '(scheme, netloc, url, params, query, fragment) := parts in
  let url := if truthy params then url ++ u ";" ++ params else url in
  urlunsplit (scheme, netloc, url, query, fragment).

End RefUrl.

(** The stand-ins as an instance of the library interface. *)
Definition reference_libraries : Libraries := {|
  idna_encode := RefIdna.encode;
  idna_decode := RefIdna.decode;
  parseaddr := RefEmail.parseaddr;
  urlparse := RefUrl.urlparse;
  urlunparse := RefUrl.urlunparse;
|}.


(** The same, with the wider [parseaddr]. *)
Definition quoted_libraries : Libraries := {|
  idna_encode := RefIdna.encode;
  idna_decode := RefIdna.decode;
  parseaddr := parseaddr_quoted;
  urlparse := RefUrl.urlparse;
  urlunparse := RefUrl.urlunparse;
|}.

(** Outside types for running examples: a distinguished name as its text,
    an object identifier as its arcs, addresses as integers and networks
    as (address, prefix length). *)
Definition reference_types : ExternalTypes := {|
  Name := string;
  ObjectIdentifier := list N;
  IPv4Address := N;
  IPv6Address := N;
  IPv4Network := N * N;
  IPv6Network := N * N;
  oid_eq := fun x y => bool_decide (x = y);
|}.

(** [==] and [hash] for running examples: names and addresses compared
    component by component, and a polynomial hash of the code points. *)
Definition reference_name_eq (x y : @Name reference_types) : bool :=
  String.eqb x y.

Definition reference_ip_eq (x y : @ip_value reference_types) : bool :=
  match x, y with
  | IPv4AddressValue a, IPv4AddressValue c => a =? c
  | IPv6AddressValue a, IPv6AddressValue c => a =? c
  | IPv4NetworkValue (a, m), IPv4NetworkValue (c, n) => (a =? c) && (m =? n)
  | IPv6NetworkValue (a, m), IPv6NetworkValue (c, n) => (a =? c) && (m =? n)
  | _, _ => false
  end.

Definition reference_hash (t : text) : Z :=
  fold_left (fun h c => ((h * 31 + Z.of_N c) mod 2305843009213693951)%Z) t 0%Z.

(** * Statements

    The vocabulary of the properties below, and three sentences of the
    specification as they are written. *)

(** The computation raises an exception of the given class. *)
Definition fails_with {A} (class : exn -> bool) (m : M A) : Prop :=
  exists e, outcome m = inl e /\ class e = true.

(** The computation returns. *)
Definition succeeds {A} (m : M A) : Prop :=
  exists a, outcome m = inr a.

(** The names the table maps to, by ascending tag. *)
Definition general_name_names : list string :=
  omap (fun t => _GENERAL_NAMES !! t) [0; 1; 2; 3; 4; 5; 6; 7; 8]%Z.

(** The C2 sentence as written: some eight names are the image of the tags
    0 through 8, each tag on one of them and no name on two tags. *)
Definition tags_biject_with_eight_names : Prop :=
  exists names : list string,
    length names = 8%nat /\
    (forall t, (0 <= t <= 8)%Z ->
       exists n, _GENERAL_NAMES !! t = Some n /\ In n names) /\
    (forall t1 t2 n, _GENERAL_NAMES !! t1 = Some n ->
       _GENERAL_NAMES !! t2 = Some n -> t1 = t2).


(** The C3 sentence as written: text is refused with a [ValueError] if and
    only if [parseaddr] gives a display name or an empty address. *)
Definition rfc822_value_error_iff_name_or_empty
    {X : ExternalTypes} {L : Libraries} : Prop :=
  forall v,
    fails_with is_ValueError (RFC822Name_init (PyText v))
    <-> fst (parseaddr v) <> [] \/ snd (parseaddr v) = [].

(** The C7 sentence as written, for [DNSName], under its two readings of
    "logical value": the argument the instance was built from, and the text
    its [value] accessor returns. *)
Definition dns_names_equal_iff_arguments_equal
    {X : ExternalTypes} {L : Libraries} : Prop :=
  forall v1 v2 n1 n2,
    outcome (DNSName_init v1) = inr n1 ->
    outcome (DNSName_init v2) = inr n2 ->
    (DNSName_eq n1 (IsDNSName n2) = Equal true <-> v1 = v2).

Definition dns_names_equal_iff_values_equal
    {X : ExternalTypes} {L : Libraries} : Prop :=
  forall n1 n2,
    DNSName_eq n1 (IsDNSName n2) = Equal true
    <-> outcome (DNSName_value n1) = outcome (DNSName_value n2).

(** The text ["café.com"]. *)
Definition cafe_com : text := u "caf" ++ [233] ++ u ".com".

(** Proof steps used throughout. *)

Ltac tag k :=
  rewrite lookup_insert;
  match goal with t : Z |- _ =>
    destruct (decide (t = k)) as [->|?];
    [reflexivity | rewrite decide_False by congruence]
  end.

Ltac run :=
  repeat progress
    (unfold mbind, M_bind, mret, M_ret, lift, raise, warn, emit,
       call_idna_encode, call_idna_decode, outcome, trace; simpl);
  rewrite ?drop_0.

Ltac by_decision := apply (bool_decide_unpack _); vm_compute; exact I.

(** * Properties *)

(** ** The tag table *)

Lemma general_names_lookup (t : Z) :
  _GENERAL_NAMES !! t =
    if decide (t = 0%Z) then Some "otherName"%string
    else if decide (t = 1%Z) then Some "rfc822Name"%string
    else if decide (t = 2%Z) then Some "dNSName"%string
    else if decide (t = 3%Z) then Some "x400Address"%string
    else if decide (t = 4%Z) then Some "directoryName"%string
    else if decide (t = 5%Z) then Some "ediPartyName"%string
    else if decide (t = 6%Z) then Some "uniformResourceIdentifier"%string
    else if decide (t = 7%Z) then Some "iPAddress"%string
    else if decide (t = 8%Z) then Some "registeredID"%string
    else None.
Proof.
  unfold _GENERAL_NAMES.
  tag 0%Z; tag 1%Z; tag 2%Z; tag 3%Z; tag 4%Z; tag 5%Z; tag 6%Z; tag 7%Z; tag 8%Z.
  apply lookup_empty.
Qed.

Lemma general_names_domain (t : Z) :
  is_Some (_GENERAL_NAMES !! t) <-> (0 <= t <= 8)%Z.
Proof.
  rewrite general_names_lookup. split.
  - intros [n Hn]. repeat case_decide; try lia. discriminate.
  - intros Ht. repeat case_decide; eauto. lia.
Qed.

Lemma general_names_injective (t1 t2 : Z) (n : string) :
  _GENERAL_NAMES !! t1 = Some n -> _GENERAL_NAMES !! t2 = Some n -> t1 = t2.
Proof.
  rewrite !general_names_lookup. intros H1 H2.
  repeat case_decide; subst; try reflexivity; congruence.
Qed.

Lemma general_name_names_nodup : List.NoDup general_name_names.
Proof.
  apply NoDup_ListNoDup.
  apply (bool_decide_unpack _). vm_compute. exact I.
Qed.

(** C2, as written, fails: the table has nine entries with nine distinct
    names (it includes x400Address at tag 3 and ediPartyName at tag 5), so
    no set of eight names can be its image. *)
Lemma general_names_not_eight : ~ tags_biject_with_eight_names.
Proof.
  intros (names & Hlen & Htotal & _).
  assert (Hincl : incl general_name_names names).
  { intros n Hn. unfold general_name_names in Hn.
    apply list_elem_of_In, list_elem_of_omap in Hn as (t & Ht & Hn).
    assert (0 <= t <= 8)%Z as Hrange by (set_unfold in Ht; lia).
    destruct (Htotal t Hrange) as (n' & Hn' & Hin). congruence. }
  pose proof (List.NoDup_incl_length general_name_names_nodup Hincl) as Hle.
  rewrite Hlen in Hle. vm_compute in Hle. lia.
Qed.

(** C2, amended: the table is a bijection between the tags 0 through 8 and
    nine names.  It is defined exactly on 0..8, no name is mapped from two
    tags, its names in tag order are otherName, rfc822Name, dNSName,
    x400Address, directoryName, ediPartyName, uniformResourceIdentifier,
    iPAddress, registeredID, and directoryName is the name of tag 4 and of
    no other tag. *)
Theorem general_names_bijection :
  (forall t, is_Some (_GENERAL_NAMES !! t) <-> (0 <= t <= 8)%Z) /\
  (forall t1 t2 n, _GENERAL_NAMES !! t1 = Some n ->
     _GENERAL_NAMES !! t2 = Some n -> t1 = t2) /\
  general_name_names =
    ["otherName"; "rfc822Name"; "dNSName"; "x400Address"; "directoryName";
     "ediPartyName"; "uniformResourceIdentifier"; "iPAddress";
     "registeredID"]%string /\
  List.NoDup general_name_names /\
  size _GENERAL_NAMES = 9%nat /\
  (forall t, _GENERAL_NAMES !! t = Some "directoryName"%string <-> t = 4%Z).
Proof.
  split; [exact general_names_domain |].
  split; [exact general_names_injective |].
  split; [reflexivity |].
  split; [exact general_name_names_nodup |].
  split; [reflexivity |].
  intros t. split.
  - intros Ht. apply (general_names_injective t 4%Z _ Ht). reflexivity.
  - intros ->. reflexivity.
Qed.

(** The bijection at tag 4 and at the two tags that have no class in this
    module. *)
Lemma general_names_bijection_witness :
  _GENERAL_NAMES !! 4%Z = Some "directoryName"%string /\
  is_Some (_GENERAL_NAMES !! 3%Z) /\ is_Some (_GENERAL_NAMES !! 5%Z).
Proof.
  destruct general_names_bijection as (Hdom & _ & _ & _ & _ & H4).
  split; [apply H4; reflexivity |].
  split; apply Hdom; lia.
Defined.

Lemma fails_not_succeeds {A} (class : exn -> bool) (m : M A) :
  fails_with class m -> ~ succeeds m.
Proof. intros (e & He & _) (a & Ha). congruence. Qed.

Lemma encode_ascii_error (t : text) (e : exn) :
  encode_ascii t = inl e -> e = UnicodeEncodeError.
Proof.
  revert e. induction t as [|c t IH]; intros e; simpl; [discriminate |].
  destruct (c <? 128); [| congruence].
  destruct (Byte.of_N c); [| congruence].
  destruct (encode_ascii t); congruence.
Qed.

Lemma split_not_nil (sep : N) (s : text) : split sep s <> [].
Proof.
  destruct s as [|c s]; simpl; [discriminate |].
  destruct (c =? sep); [discriminate |].
  destruct (split sep s); discriminate.
Qed.

Lemma split_without_separator (sep : N) (s : text) :
  sep ∉ s -> split sep s = [s].
Proof.
  induction s as [|c s IH]; intros Hs; simpl; [reflexivity |].
  apply not_elem_of_cons in Hs as [Hc Hs].
  destruct (N.eqb_spec c sep); [congruence |].
  rewrite IH by assumption. reflexivity.
Qed.

Lemma split_at_separator (sep : N) (before after : text) :
  sep ∉ before -> split sep (before ++ sep :: after) = before :: split sep after.
Proof.
  induction before as [|c s IH]; intros Hs; simpl.
  - rewrite N.eqb_refl. reflexivity.
  - apply not_elem_of_cons in Hs as [Hc Hs].
    destruct (N.eqb_spec c sep); [congruence |].
    rewrite IH by assumption. reflexivity.
Qed.

Section Properties.
Context {X : ExternalTypes} {L : Libraries}.

(** ** DirectoryName, RegisteredID, IPAddress *)

(** C8: each of the three constructors raises [TypeError] exactly on an
    argument that is not of its required kind (a [Name]; an
    [ObjectIdentifier]; one of the four address and network kinds), and on
    an argument of that kind it returns, whatever the content, the instance
    holding that very value, with no event. *)
Theorem kind_checked_constructors (v : pyobj) :
  (fails_with is_TypeError (DirectoryName_init v) <-> ~ exists n, v = PyName n) /\
  (forall n, v = PyName n ->
     DirectoryName_init v = ([], inr {| DirectoryName_value := n |})) /\
  (fails_with is_TypeError (RegisteredID_init v)
     <-> ~ exists o, v = PyObjectIdentifier o) /\
  (forall o, v = PyObjectIdentifier o ->
     RegisteredID_init v = ([], inr {| RegisteredID_value := o |})) /\
  (fails_with is_TypeError (IPAddress_init v) <-> ~ exists a, v = PyIP a) /\
  (forall a, v = PyIP a ->
     IPAddress_init v = ([], inr {| IPAddress_value := a |})).
Proof.
  repeat split; try (intros ? ->; reflexivity).
  all: try (intros (e & He & Hc) (w & ->); discriminate He).
  all: intros Hv; destruct v; try (exfalso; apply Hv; eexists; reflexivity);
       eexists; split; reflexivity.
Qed.

(** ** OtherName *)

(** C9: [OtherName] returns exactly when the type-id is an object
    identifier and the payload a byte string, and then stores both
    untouched; otherwise it raises [TypeError].  Two instances are equal
    exactly when their type-ids are equal (under [==] of object
    identifiers) and their payloads are the same bytes. *)
Theorem other_name_construction_and_equality :
  (forall o d,
     OtherName_init (PyObjectIdentifier o) (PyBytes d)
     = ([], inr {| OtherName_type_id := o; OtherName_value := d |})) /\
  (forall type_id value n,
     outcome (OtherName_init type_id value) = inr n ->
     type_id = PyObjectIdentifier (OtherName_type_id n)
     /\ value = PyBytes (OtherName_value n)) /\
  (forall type_id value,
     fails_with is_TypeError (OtherName_init type_id value)
     <-> (~ exists o, type_id = PyObjectIdentifier o)
         \/ (~ exists d, value = PyBytes d)) /\
  (forall n1 n2,
     OtherName_eq n1 (IsOtherName n2) = Equal true
     <-> oid_eq (OtherName_type_id n1) (OtherName_type_id n2) = true
         /\ OtherName_value n1 = OtherName_value n2).
Proof.
  split; [reflexivity |]. split; [| split].
  - intros type_id value n Hn.
    destruct type_id; try discriminate Hn.
    destruct value; try discriminate Hn.
    injection Hn as <-. split; reflexivity.
  - intros type_id value. split.
    + intros (e & He & Hc).
      destruct type_id; try (left; intros (w & Hw); discriminate Hw).
      destruct value; try (right; intros (w & Hw); discriminate Hw).
      discriminate He.
    + intros [Hv | Hv].
      * destruct type_id; try (exfalso; apply Hv; eexists; reflexivity);
          eexists; split; reflexivity.
      * destruct type_id; try (eexists; split; reflexivity).
        destruct value; try (exfalso; apply Hv; eexists; reflexivity);
          eexists; split; reflexivity.
  - intros n1 n2. unfold OtherName_eq. split.
    + intros Heq. injection Heq as Heq.
      apply andb_true_iff in Heq as [Hoid Hval].
      split; [exact Hoid | exact (bool_decide_eq_true_1 _ Hval)].
    + intros [Hoid Hval]. rewrite Hoid, (bool_decide_eq_true_2 _ Hval).
      reflexivity.
Qed.

(** ** DNSName: the empty name *)

(** C10: a [DNSName] built from the empty byte string is accepted as it
    is, and its legacy accessor returns the empty text; the accessor emits
    its deprecation warning and makes no call to the IDNA decoder, so the
    result does not depend on what the decoder would do. *)
Theorem dns_name_empty_value :
  DNSName_init (PyBytes []) = ([], inr {| DNSName_bytes_value := [] |}) /\
  outcome (DNSName_value {| DNSName_bytes_value := [] |}) = inr [] /\
  decoder_calls (trace (DNSName_value {| DNSName_bytes_value := [] |})) = [] /\
  warnings (trace (DNSName_value {| DNSName_bytes_value := [] |}))
    = [DeprecatedIn21].
Proof. repeat split. Qed.

(** ** Equality of the three text-like names *)

(** C7, amended: [RFC822Name] and [UniformResourceIdentifier] instances
    are equal exactly when their logical text values are, whatever their
    encoded forms; [DNSName] instances are equal exactly when their
    canonical byte forms are. *)
Theorem text_like_names_equality :
  (forall n1 n2 : RFC822Name,
     RFC822Name_eq n1 (IsRFC822Name n2) = Equal true
     <-> RFC822Name_value n1 = RFC822Name_value n2) /\
  (forall n1 n2 : UniformResourceIdentifier,
     UniformResourceIdentifier_eq n1 (IsUniformResourceIdentifier n2) = Equal true
     <-> UniformResourceIdentifier_value n1 = UniformResourceIdentifier_value n2) /\
  (forall n1 n2 : DNSName,
     DNSName_eq n1 (IsDNSName n2) = Equal true
     <-> DNSName_bytes_value n1 = DNSName_bytes_value n2).
Proof.
  repeat split.
  all: try (intros Heq; injection Heq as Heq; exact (bool_decide_eq_true_1 _ Heq)).
  all: intros Heq; simpl; rewrite (bool_decide_eq_true_2 _ Heq); reflexivity.
Qed.

End Properties.

Section DNSNameProperties.
Context {X : ExternalTypes} {L : Libraries}.

(** [_idna_encode] calls the encoder once; with a retained prefix the
    argument is the text after the prefix, and the prefix comes back in
    front of the result as ASCII bytes. *)
Lemma _idna_encode_wildcard (rest : text) :
  _idna_encode (u "*." ++ rest) =
    ([IdnaEncodeCall rest],
     match idna_encode rest with
     | Some e => inr (b "*." ++ e)
     | None => inl IDNAError
     end).
Proof.
  unfold _idna_encode. run. destruct (idna_encode rest); reflexivity.
Qed.

Lemma _idna_encode_leading_dot (rest : text) :
  _idna_encode (u "." ++ rest) =
    ([IdnaEncodeCall rest],
     match idna_encode rest with
     | Some e => inr (b "." ++ e)
     | None => inl IDNAError
     end).
Proof.
  unfold _idna_encode. run. destruct (idna_encode rest); reflexivity.
Qed.

Lemma _idna_encode_calls_once (value : text) :
  exists arg prefix,
    _idna_encode value =
      ([IdnaEncodeCall arg],
       match idna_encode arg with
       | Some e => inr (prefix ++ e)
       | None => inl IDNAError
       end).
Proof.
  unfold _idna_encode, _idna_encode_prefixes.
  destruct (startswith (u "*.") value).
  { exists (drop 2 value), (b "*."). run. destruct (idna_encode _); reflexivity. }
  destruct (startswith (u ".") value).
  { exists (drop 1 value), (b "."). run. destruct (idna_encode _); reflexivity. }
  exists value, []. run. destruct (idna_encode _); reflexivity.
Qed.

(** C5: what [DNSName] stores.  Text that is not all ASCII and starts with
    ["*."] or ["."] gives the ASCII bytes of the prefix followed by the
    IDNA encoding of the text after the prefix, and the one call to the
    encoder has that remainder as its argument (the prefix never reaches
    the codec); all-ASCII text gives its ASCII bytes, with no call to the
    encoder; both emit a deprecation warning.  Bytes are stored as they
    are, with no event.  Any other kind of argument, and no text or bytes,
    raises [TypeError]. *)
Theorem dns_name_construction :
  (forall prefix rest,
     prefix = "*."%string \/ prefix = "."%string ->
     (exists e, encode_ascii (u prefix ++ rest) = inl e) ->
     outcome (DNSName_init (PyText (u prefix ++ rest))) =
       match idna_encode rest with
       | Some e => inr {| DNSName_bytes_value := b prefix ++ e |}
       | None => inl IDNAError
       end
     /\ encoder_calls (trace (DNSName_init (PyText (u prefix ++ rest)))) = [rest]
     /\ (succeeds (DNSName_init (PyText (u prefix ++ rest))) ->
         warnings (trace (DNSName_init (PyText (u prefix ++ rest))))
         = [DeprecatedIn21])) /\
  (forall v d,
     encode_ascii v = inr d ->
     outcome (DNSName_init (PyText v)) = inr {| DNSName_bytes_value := d |}
     /\ encoder_calls (trace (DNSName_init (PyText v))) = []
     /\ warnings (trace (DNSName_init (PyText v))) = [DeprecatedIn21]) /\
  (forall d,
     DNSName_init (PyBytes d) = ([], inr {| DNSName_bytes_value := d |})) /\
  (forall v,
     fails_with is_TypeError (DNSName_init v)
     <-> (~ exists t, v = PyText t) /\ (~ exists d, v = PyBytes d)).
Proof.
  split; [| split; [| split]].
  - intros prefix rest Hprefix [e He]. unfold DNSName_init. rewrite He.
    destruct Hprefix as [-> | ->].
    + rewrite _idna_encode_wildcard. run.
      destruct (idna_encode rest); repeat split; try reflexivity.
      intros (a & Ha); discriminate Ha.
    + rewrite _idna_encode_leading_dot. run.
      destruct (idna_encode rest); repeat split; try reflexivity.
      intros (a & Ha); discriminate Ha.
  - intros v d Hd. unfold DNSName_init. rewrite Hd. repeat split.
  - reflexivity.
  - intros v. split.
    + intros (e & He & Hc). destruct v; try discriminate He.
      * exfalso. unfold DNSName_init in He.
        destruct (encode_ascii t); [| discriminate He].
        destruct (_idna_encode_calls_once t) as (arg & prefix & Hcall).
        rewrite Hcall in He. revert He. run.
        destruct (idna_encode arg); intros He; inversion He; subst; discriminate Hc.
      * split; intros (w & Hw); discriminate Hw.
      * split; intros (w & Hw); discriminate Hw.
      * split; intros (w & Hw); discriminate Hw.
      * split; intros (w & Hw); discriminate Hw.
      * split; intros (w & Hw); discriminate Hw.
    + intros [Ht Hd].
      destruct v;
        first [ exfalso; apply Ht; eexists; reflexivity
              | exfalso; apply Hd; eexists; reflexivity
              | eexists; split; reflexivity ].
Qed.


Lemma DNSName_value_wildcard (rest : bytes) :
  outcome (DNSName_value {| DNSName_bytes_value := b "*." ++ rest |}) =
    match idna_decode rest with
    | Some t => inr (u "*." ++ t)
    | None => inl IDNAError
    end
  /\ decoder_calls (trace (DNSName_value {| DNSName_bytes_value := b "*." ++ rest |}))
     = [rest].
Proof.
  unfold DNSName_value. run. destruct (idna_decode rest); split; reflexivity.
Qed.

(** With a leading period the whole byte value goes to the decoder, and
    the period is put in front of what comes back. *)
Lemma DNSName_value_leading_dot (rest : bytes) :
  outcome (DNSName_value {| DNSName_bytes_value := b "." ++ rest |}) =
    match idna_decode (b "." ++ rest) with
    | Some t => inr (u "." ++ t)
    | None => inl IDNAError
    end
  /\ decoder_calls (trace (DNSName_value {| DNSName_bytes_value := b "." ++ rest |}))
     = [b "." ++ rest].
Proof.
  unfold DNSName_value. run.
  destruct (idna_decode (_ :: rest)); split; reflexivity.
Qed.



End DNSNameProperties.

Section RFC822NameProperties.
Context {X : ExternalTypes} {L : Libraries}.

(** The constructor after the kind test, by the result of [parseaddr]. *)
Lemma RFC822Name_init_rejected (v : text) :
  fst (parseaddr v) <> [] \/ snd (parseaddr v) = [] ->
  RFC822Name_init (PyText v) = raise (ValueError "Invalid rfc822name value").
Proof.
  unfold RFC822Name_init. destruct (parseaddr v) as [name address]. simpl.
  intros [Hname | ->].
  - destruct name; [congruence | reflexivity].
  - destruct name; reflexivity.
Qed.

Lemma RFC822Name_init_single_label (v address : text) :
  parseaddr v = ([], address) -> address <> [] -> 64 ∉ address ->
  RFC822Name_init (PyText v) =
    ([], match encode_ascii address with
         | inr e => inr {| RFC822Name_value := v; RFC822Name_encoded := e |}
         | inl _ => inl UnicodeEncodeError
         end).
Proof.
  intros Hparse Haddress Hat. unfold RFC822Name_init. rewrite Hparse.
  rewrite (split_without_separator _ _ Hat).
  destruct address as [|c address]; [congruence |]. run.
  destruct (if c <? 128 then _ else _) eqn:Henc; [| reflexivity].
  rewrite (encode_ascii_error (c :: address) e Henc). reflexivity.
Qed.

Lemma RFC822Name_init_with_domain (v address local rest : text) :
  parseaddr v = ([], address) -> address = local ++ 64 :: rest -> 64 ∉ local ->
  RFC822Name_init (PyText v) =
    match encode_ascii local with
    | inl _ => ([], inl UnicodeEncodeError)
    | inr l =>
        let domain := default [] (split 64 rest !! 0%nat) in
        ([IdnaEncodeCall domain],
         match idna_encode domain with
         | Some d => inr {| RFC822Name_value := v;
                            RFC822Name_encoded := l ++ b "@" ++ d |}
         | None => inl IDNAError
         end)
    end.
Proof.
  intros Hparse -> Hat. unfold RFC822Name_init. rewrite Hparse.
  rewrite (split_at_separator _ _ _ Hat).
  replace (truthy [] || negb (truthy (local ++ 64 :: rest))) with false
    by (destruct local; reflexivity).
  destruct (split 64 rest) as [|domain parts] eqn:Hsplit;
    [exfalso; exact (split_not_nil _ _ Hsplit) |].
  run. destruct (encode_ascii local) as [e | l] eqn:Henc.
  - rewrite (encode_ascii_error _ _ Henc). reflexivity.
  - destruct (idna_encode domain); reflexivity.
Qed.

(** Every address has one of three shapes: empty, without ["@"], or with a
    first ["@"]. *)
Lemma address_shape (address : text) :
  address = [] \/ (address <> [] /\ 64 ∉ address)
  \/ exists local rest, address = local ++ 64 :: rest /\ 64 ∉ local.
Proof.
  destruct address as [|c address]; [left; reflexivity |]. right.
  destruct (decide (64 ∈ c :: address)) as [Hin | Hnot].
  - right. apply list_elem_of_split_l in Hin as (local & rest & -> & Hl). eauto.
  - left. split; [discriminate | exact Hnot].
Qed.

(** C3, amended: for text, the constructor raises its own
    [ValueError("Invalid rfc822name value")] exactly when [parseaddr] gives a
    display name or an empty address.  Text that passes this test can
    still fail, and then only with an encoding error ([UnicodeEncodeError]
    from the ASCII codec or [IDNAError] from the domain codec), both of
    which are [ValueError]s as well.  Text never raises [TypeError]; any
    argument that is not text does, and raises nothing else. *)
Theorem rfc822_name_rejection :
  (forall v,
     outcome (RFC822Name_init (PyText v))
       = inl (ValueError "Invalid rfc822name value")
     <-> fst (parseaddr v) <> [] \/ snd (parseaddr v) = []) /\
  (forall v,
     fst (parseaddr v) <> [] \/ snd (parseaddr v) = [] ->
     fails_with is_ValueError (RFC822Name_init (PyText v))) /\
  (forall v e,
     outcome (RFC822Name_init (PyText v)) = inl e ->
     ~ (fst (parseaddr v) <> [] \/ snd (parseaddr v) = []) ->
     e = UnicodeEncodeError \/ e = IDNAError) /\
  (forall v, ~ fails_with is_TypeError (RFC822Name_init (PyText v))) /\
  (forall w,
     (~ exists v, w = PyText v) ->
     outcome (RFC822Name_init w)
       = inl (TypeError "value must be a unicode string")).
Proof.
  assert (Hpass : forall v e,
    outcome (RFC822Name_init (PyText v)) = inl e ->
    ~ (fst (parseaddr v) <> [] \/ snd (parseaddr v) = []) ->
    e = UnicodeEncodeError \/ e = IDNAError).
  { intros v e He Hok.
    destruct (parseaddr v) as [name address] eqn:Hparse. simpl in Hok.
    destruct name as [|c name]; [| exfalso; apply Hok; left; discriminate].
    destruct (address_shape address) as [-> | [[Hne Hat] | (local & rest & Heq & Hat)]].
    - exfalso. apply Hok. right. reflexivity.
    - rewrite (RFC822Name_init_single_label v address Hparse Hne Hat) in He.
      revert He. run. destruct (encode_ascii address); intros He; inversion He.
      left. reflexivity.
    - rewrite (RFC822Name_init_with_domain v address local rest Hparse Heq Hat) in He.
      revert He. destruct (encode_ascii local); run.
      + intros He; inversion He. left. reflexivity.
      + destruct (idna_encode _); intros He; inversion He. right. reflexivity. }
  split; [| split; [| split; [exact Hpass | split]]].
  - intros v. split.
    + intros He.
      destruct (decide (fst (parseaddr v) <> [] \/ snd (parseaddr v) = []))
        as [Hrej | Hok]; [exact Hrej |].
      destruct (Hpass v _ He Hok); discriminate.
    + intros Hrej. rewrite (RFC822Name_init_rejected v Hrej). reflexivity.
  - intros v Hrej. rewrite (RFC822Name_init_rejected v Hrej).
    eexists. split; reflexivity.
  - intros v (e & He & Hclass).
    destruct (decide (fst (parseaddr v) <> [] \/ snd (parseaddr v) = []))
      as [Hrej | Hok].
    + rewrite (RFC822Name_init_rejected v Hrej) in He. inversion He; subst.
      discriminate Hclass.
    + destruct (Hpass v e He Hok) as [-> | ->]; discriminate Hclass.
  - intros w Hw.
    destruct w; try reflexivity. exfalso. apply Hw. eexists. reflexivity.
Qed.

(** C4: the encoded form of an accepted address (no display name, address
    not empty).  Without ["@"] it is the ASCII encoding of the address, and
    the constructor raises [UnicodeEncodeError] if there is none.  With
    exactly one ["@"] it is the ASCII bytes of the local part, then ["@"],
    then the IDNA encoding of the domain part; it raises
    [UnicodeEncodeError] if the local part is not ASCII and [IDNAError] if
    the codec refuses the domain.  In both cases the logical value is the
    text given to the constructor. *)
Theorem rfc822_name_encoded_form (v address : text) :
  parseaddr v = ([], address) ->
  address <> [] ->
  (64 ∉ address ->
   outcome (RFC822Name_init (PyText v)) =
     match encode_ascii address with
     | inr e => inr {| RFC822Name_value := v; RFC822Name_encoded := e |}
     | inl _ => inl UnicodeEncodeError
     end) /\
  (forall local domain,
     address = local ++ u "@" ++ domain -> 64 ∉ local -> 64 ∉ domain ->
     outcome (RFC822Name_init (PyText v)) =
       match encode_ascii local with
       | inl _ => inl UnicodeEncodeError
       | inr l =>
           match idna_encode domain with
           | Some d => inr {| RFC822Name_value := v;
                              RFC822Name_encoded := l ++ b "@" ++ d |}
           | None => inl IDNAError
           end
       end) /\
  (forall n,
     outcome (RFC822Name_init (PyText v)) = inr n -> RFC822Name_value n = v).
Proof.
  intros Hparse Hne. split; [| split].
  - intros Hat. rewrite (RFC822Name_init_single_label v address Hparse Hne Hat).
    reflexivity.
  - intros local domain Heq Hlocal Hdomain.
    rewrite (RFC822Name_init_with_domain v address local domain Hparse Heq Hlocal).
    rewrite (split_without_separator _ _ Hdomain). simpl.
    destruct (encode_ascii local); reflexivity.
  - intros n Hn.
    destruct (address_shape address) as [-> | [[_ Hat] | (local & rest & Heq & Hat)]].
    + congruence.
    + rewrite (RFC822Name_init_single_label v address Hparse Hne Hat) in Hn.
      revert Hn. run. destruct (encode_ascii address); intros Hn; inversion Hn.
      reflexivity.
    + rewrite (RFC822Name_init_with_domain v address local rest Hparse Heq Hat) in Hn.
      revert Hn. destruct (encode_ascii local); run; [discriminate |].
      destruct (idna_encode _); intros Hn; inversion Hn. reflexivity.
Qed.

End RFC822NameProperties.

(** ** ASCII round trips *)

Lemma encode_ascii_defined (t : text) :
  Forall (fun c => c < 128) t -> exists s, encode_ascii t = inr s.
Proof.
  induction 1 as [|c t Hc _ [s IH]]; simpl; [eauto |].
  destruct (N.ltb_spec c 128); [| lia].
  destruct (Byte.of_N c) as [x|] eqn:Hx.
  - rewrite IH. eauto.
  - apply Byte.of_N_None_iff in Hx. lia.
Qed.

Lemma decode_encode_ascii (t : text) (s : bytes) :
  encode_ascii t = inr s -> decode_ascii s = inr t.
Proof.
  revert s. induction t as [|c t IH]; intros s; simpl.
  - intros Hs; inversion Hs. reflexivity.
  - destruct (N.ltb_spec c 128) as [Hc|]; [| discriminate].
    destruct (Byte.of_N c) as [x|] eqn:Hx; [| discriminate].
    destruct (encode_ascii t) as [|r]; [discriminate |].
    intros Hs; inversion Hs; subst. simpl.
    rewrite (Byte.to_of_N _ Hx).
    destruct (N.ltb_spec c 128); [| lia].
    rewrite (IH r eq_refl). reflexivity.
Qed.

Lemma decode_ascii_app (d1 d2 : bytes) (t1 t2 : text) :
  decode_ascii d1 = inr t1 -> decode_ascii d2 = inr t2 ->
  decode_ascii (d1 ++ d2) = inr (t1 ++ t2).
Proof.
  revert t1. induction d1 as [|x d1 IH]; intros t1; simpl.
  - intros H1; inversion H1. trivial.
  - destruct (Byte.to_N x <? 128); [| discriminate].
    destruct (decode_ascii d1) as [|r]; [discriminate |].
    intros H1 H2; inversion H1; subst.
    rewrite (IH r eq_refl H2). reflexivity.
Qed.

Lemma format_int_ascii (n : Z) : Forall (fun c => c < 128) (format_int n).
Proof.
  assert (Hdigits : forall d,
    Forall (fun c => c < 128) (u (NilEmpty.string_of_uint d))).
  { induction d; simpl; constructor; (assumption || (vm_compute; reflexivity)). }
  assert (Huint : forall d,
    Forall (fun c => c < 128) (u (NilZero.string_of_uint d))).
  { intros d. destruct d; try apply Hdigits.
    constructor; [vm_compute; reflexivity | constructor]. }
  unfold format_int. destruct (Z.to_int n); simpl.
  - apply Huint.
  - constructor; [vm_compute; reflexivity | apply Huint].
Qed.

Section UniformResourceIdentifierProperties.
Context {X : ExternalTypes} {L : Libraries}.

(** The rebuilt network location, case by case. *)

Lemma encoded_netloc_no_host (parsed : ParseResult) :
  hostname parsed = None \/ hostname parsed = Some [] ->
  encoded_netloc parsed = ([], inr []).
Proof.
  unfold encoded_netloc. intros [-> | ->]; reflexivity.
Qed.

Lemma encoded_netloc_host_only (parsed : ParseResult) (h : text) :
  hostname parsed = Some h -> h <> [] -> port parsed = PortNone ->
  encoded_netloc parsed =
    ([IdnaEncodeCall h],
     match idna_encode h with
     | Some hb => decode_ascii hb
     | None => inl IDNAError
     end).
Proof.
  unfold encoded_netloc, read_port. intros -> Hh ->.
  destruct h; [congruence |]. run.
  destruct (idna_encode _) as [hb|]; [| reflexivity].
  rewrite app_nil_r. reflexivity.
Qed.

Lemma encoded_netloc_host_port (parsed : ParseResult) (h : text) (p : Z) :
  hostname parsed = Some h -> h <> [] -> port parsed = PortInt p -> p <> 0%Z ->
  encoded_netloc parsed =
    ([IdnaEncodeCall h],
     match idna_encode h with
     | Some hb =>
         match decode_ascii hb with
         | inr host => inr (host ++ u ":" ++ format_int p)
         | inl e => inl e
         end
     | None => inl IDNAError
     end).
Proof.
  unfold encoded_netloc, read_port. intros -> Hh -> Hp.
  destruct h; [congruence |].
  destruct (encode_ascii_defined (format_int p) (format_int_ascii p))
    as [digits Hdigits].
  pose proof (decode_encode_ascii _ _ Hdigits) as Hback.
  assert (Hsuffix : decode_ascii (b ":" ++ digits) = inr (u ":" ++ format_int p)).
  { simpl. rewrite Hback. reflexivity. }
  run. destruct (Z.eqb_spec p 0); [congruence |]. run.
  destruct (idna_encode _) as [hb|]; [| reflexivity]. run.
  rewrite Hdigits.
  destruct (decode_ascii hb) as [e | host] eqn:Hhost.
  - f_equal. clear -Hhost.
    revert e Hhost. induction hb as [|x hb IH]; intros e; simpl; [discriminate |].
    destruct (Byte.to_N x <? 128); [| trivial].
    destruct (decode_ascii hb) eqn:Hd; [| discriminate].
    intros He. rewrite (IH e0 eq_refl). exact He.
  - f_equal. exact (decode_ascii_app _ _ _ _ Hhost Hsuffix).
Qed.

(** With the port 0 the [elif parsed.port:] test is false, and the branch
    taken is the one for a URL without port. *)
Lemma encoded_netloc_port_zero (parsed : ParseResult) (h : text) :
  hostname parsed = Some h -> h <> [] -> port parsed = PortInt 0 ->
  encoded_netloc parsed =
    ([IdnaEncodeCall h],
     match idna_encode h with
     | Some hb => decode_ascii hb
     | None => inl IDNAError
     end).
Proof.
  unfold encoded_netloc, read_port. intros -> Hh ->.
  destruct h; [congruence |]. run.
  destruct (idna_encode _) as [hb|]; [| reflexivity].
  rewrite app_nil_r. reflexivity.
Qed.

(** The example of the specification: host and port 8443. *)
Example uri_cafe_8443 :
  let v := u "https://caf" ++ [233] ++ u ".com:8443/path" in
  outcome (@UniformResourceIdentifier_init X reference_libraries (PyText v)) =
    inr {| UniformResourceIdentifier_value := v;
           UniformResourceIdentifier_encoded :=
             b "https://xn--caf-dma.com:8443/path" |}.
Proof. vm_compute. reflexivity. Qed.

(** C6 where it fails: a URL with host and port 0.  [urlparse] reports the
    port as the integer 0; the constructor rebuilds the network location
    from the encoded host alone, so the stored form has no [":0"].  On the
    reference libraries, ["https://café.com:0/path"] is stored as
    [b"https://xn--caf-dma.com/path"]. *)
Theorem uri_port_zero_dropped :
  (forall parsed h,
     hostname parsed = Some h -> h <> [] -> port parsed = PortInt 0 ->
     outcome (encoded_netloc parsed) =
       match idna_encode h with
       | Some hb => decode_ascii hb
       | None => inl IDNAError
       end) /\
  (let v := u "https://caf" ++ [233] ++ u ".com:0/path" in
   (exists parsed,
      RefUrl.urlparse v = inr parsed
      /\ hostname parsed = Some (u "caf" ++ [233] ++ u ".com")
      /\ port parsed = PortInt 0) /\
   outcome (@UniformResourceIdentifier_init X reference_libraries (PyText v)) =
     inr {| UniformResourceIdentifier_value := v;
            UniformResourceIdentifier_encoded :=
              b "https://xn--caf-dma.com/path" |}).
Proof.
  split.
  - intros parsed h Hh Hne Hp.
    rewrite (encoded_netloc_port_zero parsed h Hh Hne Hp). reflexivity.
  - split; [eexists; vm_compute; repeat split | vm_compute; reflexivity].
Qed.

End UniformResourceIdentifierProperties.

(** * Further properties *)

Section MoreDNSNameProperties.
Context {X : ExternalTypes} {L : Libraries}.

Lemma _idna_encode_plain (v : text) :
  startswith (u "*.") v = false -> startswith (u ".") v = false ->
  _idna_encode v =
    ([IdnaEncodeCall v],
     match idna_encode v with
     | Some e => inr e
     | None => inl IDNAError
     end).
Proof.
  intros Hstar Hdot. unfold _idna_encode, _idna_encode_prefixes.
  rewrite Hstar, Hdot. run. destruct (idna_encode v); reflexivity.
Qed.

(** X1: text that is not all ASCII and starts with neither ["*."] nor
    ["."] goes to the encoder whole, in one call, and what the encoder
    returns is stored as it is; if the encoder refuses, the constructor
    raises [IDNAError]. *)
Theorem dns_name_plain_unicode_text (v : text) :
  (exists e, encode_ascii v = inl e) ->
  startswith (u "*.") v = false ->
  startswith (u ".") v = false ->
  outcome (DNSName_init (PyText v)) =
    match idna_encode v with
    | Some e => inr {| DNSName_bytes_value := e |}
    | None => inl IDNAError
    end
  /\ encoder_calls (trace (DNSName_init (PyText v))) = [v].
Proof.
  intros [e He] Hstar Hdot. unfold DNSName_init. rewrite He.
  rewrite (_idna_encode_plain v Hstar Hdot). run.
  destruct (idna_encode v); split; reflexivity.
Qed.

(** X2: the deprecation warning of the constructor.  Text that is accepted
    gives exactly one warning; text that is refused gives none, because the
    warning comes after the encoding; bytes never give one. *)
Theorem dns_name_warns_on_accepted_text :
  (forall v n,
     outcome (DNSName_init (PyText v)) = inr n ->
     warnings (trace (DNSName_init (PyText v))) = [DeprecatedIn21]) /\
  (forall v e,
     outcome (DNSName_init (PyText v)) = inl e ->
     e = IDNAError /\ warnings (trace (DNSName_init (PyText v))) = []) /\
  (forall d, warnings (trace (DNSName_init (PyBytes d))) = []).
Proof.
  split; [| split].
  - intros v n. unfold DNSName_init.
    destruct (encode_ascii v); [| reflexivity].
    destruct (_idna_encode_calls_once v) as (arg & prefix & ->). run.
    destruct (idna_encode arg); [reflexivity | discriminate].
  - intros v e. unfold DNSName_init.
    destruct (encode_ascii v); [| discriminate].
    destruct (_idna_encode_calls_once v) as (arg & prefix & ->). run.
    destruct (idna_encode arg); [discriminate |].
    intros He; inversion He. split; reflexivity.
  - reflexivity.
Qed.

(** X3: the accessor on a name without retained prefix.  A byte value
    that is not empty and starts with neither [b"*."] nor [b"."] goes to
    the decoder whole, in one call, and the text that comes back is the
    result; if the decoder refuses (as it does for a ["*"] that is not a
    leading label), the accessor raises [IDNAError]. *)
Theorem dns_name_value_plain (data : bytes) :
  data <> [] ->
  startswith (b "*.") data = false ->
  startswith (b ".") data = false ->
  outcome (DNSName_value {| DNSName_bytes_value := data |}) =
    match idna_decode data with
    | Some t => inr t
    | None => inl IDNAError
    end
  /\ decoder_calls (trace (DNSName_value {| DNSName_bytes_value := data |}))
     = [data].
Proof.
  intros Hne Hstar Hdot. unfold DNSName_value. simpl DNSName_bytes_value.
  rewrite Hstar, Hdot. destruct data; [congruence |]. run.
  destruct (idna_decode _); split; reflexivity.
Qed.

(** X4: what the accessor does besides returning.  It warns exactly once,
    and first, also when it then fails; it never calls the encoder; it
    calls the decoder once, except for the empty byte value, where it calls
    nothing. *)
Theorem dns_name_value_events (self : DNSName) :
  (exists msg rest,
     trace (DNSName_value self) = Warn DeprecatedIn21 msg :: rest) /\
  warnings (trace (DNSName_value self)) = [DeprecatedIn21] /\
  encoder_calls (trace (DNSName_value self)) = [] /\
  (DNSName_bytes_value self = [] ->
   decoder_calls (trace (DNSName_value self)) = []) /\
  (DNSName_bytes_value self <> [] ->
   exists arg, decoder_calls (trace (DNSName_value self)) = [arg]).
Proof.
  destruct self as [data]. unfold DNSName_value. simpl DNSName_bytes_value.
  destruct data as [|x data].
  { repeat split; try congruence. eexists _, _. reflexivity. }
  remember (startswith (b "*.") (x :: data)) as star.
  remember (startswith (b ".") (x :: data)) as dot.
  destruct star.
  { run. destruct (idna_decode _); repeat split; try discriminate; eauto. }
  run. destruct (idna_decode _); [destruct dot |];
    repeat split; try discriminate; eauto.
Qed.

Lemma encode_ascii_retained_prefix (prefix : string) (t : text) :
  prefix = "*."%string \/ prefix = "."%string ->
  encode_ascii (u prefix ++ t) =
    match encode_ascii t with
    | inr a => inr (b prefix ++ a)
    | inl _ => inl UnicodeEncodeError
    end.
Proof.
  intros [-> | ->]; simpl; destruct (encode_ascii t); reflexivity.
Qed.

(** X5: decode, then construct again, for a byte value with a retained
    prefix whose remainder the decoder accepts (and a decoder that
    disregards a leading period).  The bytes stored the second time are the
    prefix followed by the ASCII encoding of the decoded remainder if it
    has one, and by its IDNA encoding otherwise.  So the original bytes
    come back exactly when that encoding of the decoded remainder is the
    original remainder. *)
Theorem dns_name_prefix_round_trip (prefix : string) (rest : bytes) (t : text) :
  prefix = "*."%string \/ prefix = "."%string ->
  (forall d, idna_decode (b "." ++ d) = idna_decode d) ->
  idna_decode rest = Some t ->
  outcome (DNSName_value {| DNSName_bytes_value := b prefix ++ rest |})
    = inr (u prefix ++ t)
  /\ outcome (DNSName_init (PyText (u prefix ++ t))) =
       match encode_ascii t with
       | inr a => inr {| DNSName_bytes_value := b prefix ++ a |}
       | inl _ =>
           match idna_encode t with
           | Some e => inr {| DNSName_bytes_value := b prefix ++ e |}
           | None => inl IDNAError
           end
       end
  /\ (encode_ascii t = inr rest
      \/ ((exists e, encode_ascii t = inl e) /\ idna_encode t = Some rest) ->
      outcome (DNSName_init (PyText (u prefix ++ t)))
        = inr {| DNSName_bytes_value := b prefix ++ rest |}).
Proof.
  intros Hprefix Hdot Hdecode.
  assert (Hinit : outcome (DNSName_init (PyText (u prefix ++ t))) =
       match encode_ascii t with
       | inr a => inr {| DNSName_bytes_value := b prefix ++ a |}
       | inl _ =>
           match idna_encode t with
           | Some e => inr {| DNSName_bytes_value := b prefix ++ e |}
           | None => inl IDNAError
           end
       end).
  { unfold DNSName_init. rewrite (encode_ascii_retained_prefix prefix t Hprefix).
    destruct (encode_ascii t); [| reflexivity].
    destruct Hprefix as [-> | ->];
      [rewrite _idna_encode_wildcard | rewrite _idna_encode_leading_dot];
      run; destruct (idna_encode t); reflexivity. }
  split; [| split; [exact Hinit |]].
  - destruct Hprefix as [-> | ->].
    + rewrite (proj1 (DNSName_value_wildcard rest)), Hdecode. reflexivity.
    + rewrite (proj1 (DNSName_value_leading_dot rest)), Hdot, Hdecode. reflexivity.
  - rewrite Hinit. intros [-> | [[e ->] ->]]; reflexivity.
Qed.

End MoreDNSNameProperties.

Lemma encode_ascii_ascii_bytes (t : text) (s : bytes) :
  encode_ascii t = inr s -> ascii_bytes s.
Proof.
  revert s. induction t as [|c t IH]; intros s; simpl.
  - intros Hs; inversion Hs. constructor.
  - destruct (N.ltb_spec c 128) as [Hc|]; [| discriminate].
    destruct (Byte.of_N c) as [x|] eqn:Hx; [| discriminate].
    destruct (encode_ascii t) as [|r]; [discriminate |].
    intros Hs; inversion Hs; subst. constructor.
    + rewrite (Byte.to_of_N _ Hx). exact Hc.
    + apply IH. reflexivity.
Qed.

Section MoreRFC822NameProperties.
Context {X : ExternalTypes} {L : Libraries}.

(** An accepted text, taken apart: the value is the text, and the encoded
    form comes from the parsed address in one of two ways. *)
Lemma RFC822Name_init_accepted (v : text) (n : RFC822Name) :
  outcome (RFC822Name_init (PyText v)) = inr n ->
  RFC822Name_value n = v /\
  fst (parseaddr v) = [] /\
  (((64 ∉ snd (parseaddr v))
    /\ encode_ascii (snd (parseaddr v)) = inr (RFC822Name_encoded n))
   \/ exists local rest l d,
        snd (parseaddr v) = local ++ 64 :: rest /\ (64 ∉ local)
        /\ encode_ascii local = inr l
        /\ idna_encode (default [] (split 64 rest !! 0%nat)) = Some d
        /\ RFC822Name_encoded n = l ++ b "@" ++ d).
Proof.
  intros Hn.
  destruct (decide (fst (parseaddr v) <> [] \/ snd (parseaddr v) = []))
    as [Hrej | Hok].
  { rewrite (RFC822Name_init_rejected v Hrej) in Hn. discriminate Hn. }
  destruct (parseaddr v) as [name address] eqn:Hparse. simpl in *.
  destruct name as [|c name]; [| exfalso; apply Hok; left; discriminate].
  destruct (address_shape address)
    as [-> | [[Hne Hat] | (local & rest & Heq & Hat)]].
  - exfalso. apply Hok. right. reflexivity.
  - rewrite (RFC822Name_init_single_label v address Hparse Hne Hat) in Hn.
    revert Hn. run. destruct (encode_ascii address) as [|e]; intros Hn;
      inversion Hn; subst; simpl. split; [reflexivity |]. split; [reflexivity |].
    left. split; [exact Hat | reflexivity].
  - rewrite (RFC822Name_init_with_domain v address local rest Hparse Heq Hat) in Hn.
    revert Hn. destruct (encode_ascii local) as [|l] eqn:Hl; run; [discriminate |].
    destruct (idna_encode _) as [d|] eqn:Hd; intros Hn; inversion Hn; subst; simpl.
    split; [reflexivity |]. split; [reflexivity |].
    right. exists local, rest, l, d. repeat split; assumption.
Qed.

(** X6: an address with more than one ["@"].  Only the text before the
    first ["@"] and the text between the first and the second are used: the
    encoded form is the ASCII bytes of the first, ["@"], and the IDNA
    encoding of the second, and the one call to the encoder has the second
    as its argument.  What follows the second ["@"] is in the logical value
    and nowhere in the encoded form. *)
Theorem rfc822_name_second_at_sign (v local domain tail : text) :
  parseaddr v = ([], local ++ u "@" ++ domain ++ u "@" ++ tail) ->
  64 ∉ local -> 64 ∉ domain ->
  outcome (RFC822Name_init (PyText v)) =
    match encode_ascii local with
    | inl _ => inl UnicodeEncodeError
    | inr l =>
        match idna_encode domain with
        | Some d => inr {| RFC822Name_value := v;
                           RFC822Name_encoded := l ++ b "@" ++ d |}
        | None => inl IDNAError
        end
    end
  /\ (forall arg, arg ∈ encoder_calls (trace (RFC822Name_init (PyText v))) ->
      arg = domain).
Proof.
  intros Hparse Hlocal Hdomain.
  rewrite (RFC822Name_init_with_domain v _ local (domain ++ u "@" ++ tail)
             Hparse eq_refl Hlocal).
  change (domain ++ u "@" ++ tail) with (domain ++ 64 :: tail).
  rewrite (split_at_separator _ _ _ Hdomain). simpl.
  destruct (encode_ascii local); split; try reflexivity.
  - intros arg Harg. inversion Harg.
  - intros arg Harg. apply list_elem_of_singleton in Harg. exact Harg.
Qed.

(** X7: what the constructor does besides returning or raising.  It never
    warns and never calls the decoder.  It calls the encoder at most once,
    and not at all for an argument that is not text, for a text with a
    display name or an empty address, or for an address without ["@"]:
    those are decided before any encoding. *)
Theorem rfc822_name_events (w : pyobj) :
  warnings (trace (RFC822Name_init w)) = [] /\
  decoder_calls (trace (RFC822Name_init w)) = [] /\
  (length (encoder_calls (trace (RFC822Name_init w))) <= 1)%nat /\
  ((~ exists v, w = PyText v) -> trace (RFC822Name_init w) = []) /\
  (forall v,
     w = PyText v ->
     fst (parseaddr v) <> [] \/ snd (parseaddr v) = [] \/ 64 ∉ snd (parseaddr v) ->
     trace (RFC822Name_init w) = []).
Proof.
  assert (Htext : forall v,
    trace (RFC822Name_init (PyText v)) = []
    \/ (~ (fst (parseaddr v) <> [] \/ snd (parseaddr v) = [] \/ 64 ∉ snd (parseaddr v))
        /\ exists domain, trace (RFC822Name_init (PyText v)) = [IdnaEncodeCall domain])).
  { intros v.
    destruct (decide (fst (parseaddr v) <> [] \/ snd (parseaddr v) = []))
      as [Hrej | Hok].
    { left. rewrite (RFC822Name_init_rejected v Hrej). reflexivity. }
    destruct (parseaddr v) as [name address] eqn:Hparse. simpl in *.
    destruct name as [|c name]; [| exfalso; apply Hok; left; discriminate].
    destruct (address_shape address)
      as [-> | [[Hne Hat] | (local & rest & Heq & Hat)]].
    - exfalso. apply Hok. right. reflexivity.
    - left. rewrite (RFC822Name_init_single_label v address Hparse Hne Hat).
      reflexivity.
    - rewrite (RFC822Name_init_with_domain v address local rest Hparse Heq Hat).
      destruct (encode_ascii local); [left; reflexivity |].
      right. split; [| eexists; reflexivity].
      intros [Hname | [Hempty | Hnoat]]; [congruence | |].
      + subst. destruct local; discriminate.
      + apply Hnoat. subst. apply elem_of_app. right. left. }
  destruct w as [v| | | | | |];
    try (split; [reflexivity |]; split; [reflexivity |]; split; [simpl; lia |];
         split; [reflexivity | intros v' Hv'; discriminate Hv']).
  destruct (Htext v) as [Hnil | (Hshape & domain & Hcall)].
  - rewrite Hnil. split; [reflexivity |]. split; [reflexivity |].
    split; [simpl; lia |]. split; reflexivity.
  - rewrite Hcall. split; [reflexivity |]. split; [reflexivity |].
    split; [simpl; lia |]. split.
    + intros Hw. exfalso. apply Hw. eexists. reflexivity.
    + intros v' Hv' Hcase. inversion Hv'; subst. contradiction.
Qed.

(** X8: the encoded form is read off the parsed address, equality off the
    text.  Two accepted texts that [parseaddr] parses alike have the same
    encoded form, and still compare equal only if they are the same text
    (so texts that differ in blanks around the address give unequal names
    with one encoding). *)
Theorem rfc822_name_encoded_of_parse (v1 v2 : text) (n1 n2 : RFC822Name) :
  parseaddr v1 = parseaddr v2 ->
  outcome (RFC822Name_init (PyText v1)) = inr n1 ->
  outcome (RFC822Name_init (PyText v2)) = inr n2 ->
  RFC822Name_encoded n1 = RFC822Name_encoded n2
  /\ (RFC822Name_eq n1 (IsRFC822Name n2) = Equal true <-> v1 = v2).
Proof.
  intros Hparse H1 H2.
  destruct (RFC822Name_init_accepted v1 n1 H1) as (Hv1 & _ & Hcase1).
  destruct (RFC822Name_init_accepted v2 n2 H2) as (Hv2 & _ & Hcase2).
  rewrite Hparse in Hcase1. split.
  - destruct Hcase1 as [[Hat1 He1] | (local1 & rest1 & l1 & d1 & Ha1 & Hat1 & Hl1 & Hd1 & He1)];
    destruct Hcase2 as [[Hat2 He2] | (local2 & rest2 & l2 & d2 & Ha2 & Hat2 & Hl2 & Hd2 & He2)].
    + congruence.
    + exfalso. apply Hat1. rewrite Ha2. apply elem_of_app. right. left.
    + exfalso. apply Hat2. rewrite Ha1. apply elem_of_app. right. left.
    + assert (Hsplit : local1 :: split 64 rest1 = local2 :: split 64 rest2).
      { rewrite <- (split_at_separator _ _ _ Hat1), <- (split_at_separator _ _ _ Hat2).
        congruence. }
      inversion Hsplit as [[Hlocal Hrest]]. subst local2.
      rewrite Hrest in Hd1. congruence.
  - unfold RFC822Name_eq. rewrite Hv1, Hv2. split.
    + intros Heq. inversion Heq as [Hb]. exact (bool_decide_eq_true_1 _ Hb).
    + intros Heq. rewrite (bool_decide_eq_true_2 _ Heq). reflexivity.
Qed.

End MoreRFC822NameProperties.

Lemma decode_ascii_error (d : bytes) (e : exn) :
  decode_ascii d = inl e -> e = UnicodeDecodeError.
Proof.
  revert e. induction d as [|x d IH]; intros e; simpl; [discriminate |].
  destruct (Byte.to_N x <? 128); [| congruence].
  destruct (decode_ascii d) as [e'|]; [| discriminate].
  intros He; inversion He; subst. apply IH. reflexivity.
Qed.

Section MoreUniformResourceIdentifierProperties.
Context {X : ExternalTypes} {L : Libraries}.

(** The constructor after parsing, by how the network location came out. *)
Lemma UniformResourceIdentifier_init_rebuilt
    (v : text) (parsed : ParseResult) (evs : list event) (nl : text) :
  urlparse v = inr parsed ->
  encoded_netloc parsed = (evs, inr nl) ->
  UniformResourceIdentifier_init (PyText v) =
    (evs,
     match encode_ascii (urlunparse (scheme parsed, nl, path parsed,
                                     params parsed, query parsed,
                                     fragment parsed)) with
     | inr e => inr {| UniformResourceIdentifier_value := v;
                       UniformResourceIdentifier_encoded := e |}
     | inl _ => inl UnicodeEncodeError
     end).
Proof.
  intros Hparse Hnetloc. unfold UniformResourceIdentifier_init.
  rewrite Hparse. run. rewrite Hnetloc.
  destruct (encode_ascii _) as [e|] eqn:Henc; simpl; rewrite app_nil_r.
  - rewrite (encode_ascii_error _ _ Henc). reflexivity.
  - reflexivity.
Qed.

Lemma UniformResourceIdentifier_init_netloc_error
    (v : text) (parsed : ParseResult) (evs : list event) (e : exn) :
  urlparse v = inr parsed ->
  encoded_netloc parsed = (evs, inl e) ->
  UniformResourceIdentifier_init (PyText v) = (evs, inl e).
Proof.
  intros Hparse Hnetloc. unfold UniformResourceIdentifier_init.
  rewrite Hparse. run. rewrite Hnetloc. reflexivity.
Qed.

Lemma encoded_netloc_port_invalid (parsed : ParseResult) (h : text) :
  hostname parsed = Some h -> h <> [] -> port parsed = PortInvalid ->
  exists msg, encoded_netloc parsed = ([], inl (ValueError msg)).
Proof.
  unfold encoded_netloc, read_port. intros -> Hh ->.
  destruct h; [congruence |]. eexists. reflexivity.
Qed.

Lemma encoded_netloc_error (parsed : ParseResult) (e : exn) :
  outcome (encoded_netloc parsed) = inl e -> is_ValueError e = true.
Proof.
  destruct (hostname parsed) as [[|c h]|] eqn:Hh.
  - rewrite (encoded_netloc_no_host parsed) by auto. discriminate.
  - assert (Hne : c :: h <> []) by discriminate.
    destruct (port parsed) as [|p|] eqn:Hp.
    + rewrite (encoded_netloc_host_only parsed _ Hh Hne Hp). run.
      destruct (idna_encode _) as [hb|]; [| intros He; inversion He; reflexivity].
      intros He. rewrite (decode_ascii_error _ _ He). reflexivity.
    + destruct (decide (p = 0%Z)) as [-> | Hnz].
      * rewrite (encoded_netloc_port_zero parsed _ Hh Hne Hp). run.
        destruct (idna_encode _) as [hb|]; [| intros He; inversion He; reflexivity].
        intros He. rewrite (decode_ascii_error _ _ He). reflexivity.
      * rewrite (encoded_netloc_host_port parsed _ p Hh Hne Hp Hnz). run.
        destruct (idna_encode _) as [hb|]; [| intros He; inversion He; reflexivity].
        destruct (decode_ascii hb) as [e'|] eqn:Hd; [| discriminate].
        intros He; inversion He; subst.
        rewrite (decode_ascii_error _ _ Hd). reflexivity.
    + destruct (encoded_netloc_port_invalid parsed _ Hh Hne Hp) as [msg ->].
      intros He; inversion He. reflexivity.
  - rewrite (encoded_netloc_no_host parsed) by auto. discriminate.
Qed.

(** X9: a URL with a host and either no port or a port other than 0.  The
    URL is put together again from the parsed scheme, path, parameters,
    query and fragment and a network location that is the encoded host
    alone, or the encoded host, [":"] and the port in decimal; the stored
    form is the ASCII encoding of that, and the constructor raises
    [UnicodeEncodeError] if it has none.  The parsed [netloc] itself is not
    used, so user information in it does not reach the stored form. *)
Theorem uri_rebuilt_from_host_and_port
    (v : text) (parsed : ParseResult) (h : text) (hb : bytes) (host nl : text) :
  urlparse v = inr parsed ->
  hostname parsed = Some h -> h <> [] ->
  idna_encode h = Some hb ->
  decode_ascii hb = inr host ->
  (port parsed = PortNone /\ nl = host)
  \/ (exists p, port parsed = PortInt p /\ p <> 0%Z
                /\ nl = host ++ u ":" ++ format_int p) ->
  outcome (UniformResourceIdentifier_init (PyText v)) =
    match encode_ascii (urlunparse (scheme parsed, nl, path parsed,
                                    params parsed, query parsed,
                                    fragment parsed)) with
    | inr e => inr {| UniformResourceIdentifier_value := v;
                      UniformResourceIdentifier_encoded := e |}
    | inl _ => inl UnicodeEncodeError
    end
  /\ encoder_calls (trace (UniformResourceIdentifier_init (PyText v))) = [h].
Proof.
  intros Hparse Hh Hne Hidna Hhost Hport.
  assert (Hnetloc : encoded_netloc parsed = ([IdnaEncodeCall h], inr nl)).
  { destruct Hport as [[Hp ->] | (p & Hp & Hnz & ->)].
    - rewrite (encoded_netloc_host_only parsed h Hh Hne Hp), Hidna, Hhost.
      reflexivity.
    - rewrite (encoded_netloc_host_port parsed h p Hh Hne Hp Hnz), Hidna, Hhost.
      reflexivity. }
  rewrite (UniformResourceIdentifier_init_rebuilt v parsed _ nl Hparse Hnetloc).
  split; reflexivity.
Qed.

(** X10: the port is looked at only when there is a host.  Without a host
    (none, or the empty one) the network location is empty and nothing is
    encoded, whatever the port, a port out of range included.  With a host
    and a port that [urlparse] refuses, the constructor raises the
    [ValueError] of the port before it encodes anything. *)
Theorem uri_port_read_only_with_host (v : text) (parsed : ParseResult) :
  urlparse v = inr parsed ->
  (hostname parsed = None \/ hostname parsed = Some [] ->
   UniformResourceIdentifier_init (PyText v) =
     ([],
      match encode_ascii (urlunparse (scheme parsed, [], path parsed,
                                      params parsed, query parsed,
                                      fragment parsed)) with
      | inr e => inr {| UniformResourceIdentifier_value := v;
                        UniformResourceIdentifier_encoded := e |}
      | inl _ => inl UnicodeEncodeError
      end)) /\
  (forall h,
     hostname parsed = Some h -> h <> [] -> port parsed = PortInvalid ->
     fails_with is_ValueError (UniformResourceIdentifier_init (PyText v))
     /\ trace (UniformResourceIdentifier_init (PyText v)) = []).
Proof.
  intros Hparse. split.
  - intros Hhost.
    exact (UniformResourceIdentifier_init_rebuilt v parsed [] [] Hparse
             (encoded_netloc_no_host parsed Hhost)).
  - intros h Hh Hne Hp.
    destruct (encoded_netloc_port_invalid parsed h Hh Hne Hp) as [msg Hnetloc].
    rewrite (UniformResourceIdentifier_init_netloc_error v parsed _ _ Hparse Hnetloc).
    split; [eexists; split; reflexivity | reflexivity].
Qed.

(** X11: how the constructor fails.  An argument that is not text raises
    [TypeError] before anything else is done.  For text, an exception of
    [urlparse] is passed on as it is, and once the text is parsed every
    failure is a [ValueError]: from the port, from the domain codec, or
    from an ASCII codec.  The constructor never warns and never calls the
    decoder. *)
Theorem uri_failures :
  (forall w,
     (~ exists v, w = PyText v) ->
     UniformResourceIdentifier_init w
       = ([], inl (TypeError "value must be a unicode string"))) /\
  (forall v e,
     urlparse v = inl e ->
     UniformResourceIdentifier_init (PyText v) = ([], inl e)) /\
  (forall v parsed e,
     urlparse v = inr parsed ->
     outcome (UniformResourceIdentifier_init (PyText v)) = inl e ->
     is_ValueError e = true) /\
  (forall w,
     warnings (trace (UniformResourceIdentifier_init w)) = []
     /\ decoder_calls (trace (UniformResourceIdentifier_init w)) = []).
Proof.
  split; [| split; [| split]].
  - intros w Hw. destruct w; try reflexivity.
    exfalso. apply Hw. eexists. reflexivity.
  - intros v e He. unfold UniformResourceIdentifier_init. rewrite He. reflexivity.
  - intros v parsed e Hparse.
    destruct (encoded_netloc parsed) as [evs [e' | nl]] eqn:Hnetloc.
    + rewrite (UniformResourceIdentifier_init_netloc_error v parsed _ _ Hparse Hnetloc).
      intros He; inversion He; subst.
      apply (encoded_netloc_error parsed). rewrite Hnetloc. reflexivity.
    + rewrite (UniformResourceIdentifier_init_rebuilt v parsed _ _ Hparse Hnetloc).
      run. destruct (encode_ascii _); intros He; inversion He. reflexivity.
  - intros w. destruct w as [v| | | | | |]; try (split; reflexivity).
    destruct (urlparse v) as [e | parsed] eqn:Hparse.
    { unfold UniformResourceIdentifier_init. rewrite Hparse. split; reflexivity. }
    assert (Hquiet : warnings (trace (encoded_netloc parsed)) = []
                     /\ decoder_calls (trace (encoded_netloc parsed)) = []).
    { destruct (hostname parsed) as [[|c h]|] eqn:Hh.
      - rewrite (encoded_netloc_no_host parsed) by auto. split; reflexivity.
      - assert (Hne : c :: h <> []) by discriminate.
        destruct (port parsed) as [|p|] eqn:Hp.
        + rewrite (encoded_netloc_host_only parsed _ Hh Hne Hp). split; reflexivity.
        + destruct (decide (p = 0%Z)) as [-> | Hnz].
          * rewrite (encoded_netloc_port_zero parsed _ Hh Hne Hp). split; reflexivity.
          * rewrite (encoded_netloc_host_port parsed _ p Hh Hne Hp Hnz).
            split; reflexivity.
        + destruct (encoded_netloc_port_invalid parsed _ Hh Hne Hp) as [msg ->].
          split; reflexivity.
      - rewrite (encoded_netloc_no_host parsed) by auto. split; reflexivity. }
    destruct (encoded_netloc parsed) as [evs [e' | nl]] eqn:Hnetloc.
    + rewrite (UniformResourceIdentifier_init_netloc_error v parsed _ _ Hparse Hnetloc).
      exact Hquiet.
    + rewrite (UniformResourceIdentifier_init_rebuilt v parsed _ _ Hparse Hnetloc).
      exact Hquiet.
Qed.

End MoreUniformResourceIdentifierProperties.

Section EncodedFormsAreASCII.
Context {X : ExternalTypes} {L : Libraries}.

Lemma _idna_encode_result (value : text) (d : bytes) :
  outcome (_idna_encode value) = inr d ->
  exists arg prefix e,
    idna_encode arg = Some e /\ d = prefix ++ e /\ ascii_bytes prefix.
Proof.
  unfold _idna_encode, _idna_encode_prefixes.
  destruct (startswith (u "*.") value).
  { run. destruct (idna_encode _) as [e|] eqn:He; intros Hd; simpl in Hd;
      [injection Hd as <- | discriminate Hd].
    exists (drop 2 value), (b "*."), e.
    split; [exact He |]. split; [reflexivity | repeat constructor]. }
  destruct (startswith (u ".") value).
  { run. destruct (idna_encode _) as [e|] eqn:He; intros Hd; simpl in Hd;
      [injection Hd as <- | discriminate Hd].
    exists (drop 1 value), (b "."), e.
    split; [exact He |]. split; [reflexivity | repeat constructor]. }
  run. destruct (idna_encode _) as [e|] eqn:He; intros Hd; simpl in Hd;
      [injection Hd as <- | discriminate Hd].
  exists value, [], e. split; [exact He |]. split; [reflexivity | constructor].
Qed.

(** X12: the encoded forms are ASCII.  The stored form of a
    [UniformResourceIdentifier] always is.  Given a domain codec that
    returns ASCII bytes, so are the encoded form of an [RFC822Name] and the
    byte value of a [DNSName] built from text.  (A [DNSName] built from
    bytes holds whatever bytes it was given.) *)
Theorem encoded_forms_are_ascii :
  (forall w n,
     outcome (UniformResourceIdentifier_init w) = inr n ->
     ascii_bytes (UniformResourceIdentifier_encoded n)) /\
  ((forall t r, idna_encode t = Some r -> ascii_bytes r) ->
   (forall w n,
      outcome (RFC822Name_init w) = inr n ->
      ascii_bytes (RFC822Name_encoded n)) /\
   (forall t n,
      outcome (DNSName_init (PyText t)) = inr n ->
      ascii_bytes (DNSName_bytes_value n))).
Proof.
  split.
  - intros w n. destruct w as [v| | | | | |]; try discriminate.
    destruct (urlparse v) as [e | parsed] eqn:Hparse.
    { rewrite (proj1 (proj2 uri_failures) v e Hparse). discriminate. }
    destruct (encoded_netloc parsed) as [evs [e' | nl]] eqn:Hnetloc.
    + rewrite (UniformResourceIdentifier_init_netloc_error v parsed _ _ Hparse Hnetloc).
      discriminate.
    + rewrite (UniformResourceIdentifier_init_rebuilt v parsed _ _ Hparse Hnetloc).
      run. destruct (encode_ascii _) as [|e] eqn:Henc; intros Hn; inversion Hn.
      simpl. exact (encode_ascii_ascii_bytes _ _ Henc).
  - intros Hcodec. split.
    + intros w n. destruct w as [v| | | | | |]; try discriminate.
      intros Hn. destruct (RFC822Name_init_accepted v n Hn)
        as (_ & _ & [[_ Henc] | (local & rest & l & d & _ & _ & Hl & Hd & ->)]).
      * exact (encode_ascii_ascii_bytes _ _ Henc).
      * apply Forall_app. split; [exact (encode_ascii_ascii_bytes _ _ Hl) |].
        apply Forall_app. split; [repeat constructor | exact (Hcodec _ _ Hd)].
    + intros t n. unfold DNSName_init.
      destruct (encode_ascii t) as [err|d] eqn:Henc.
      * destruct (_idna_encode t) as [evs [err' | d]] eqn:Hcall; run;
          intros Hn; inversion Hn; subst. simpl.
        destruct (_idna_encode_result t d) as (arg & prefix & enc & He & -> & Hp).
        { rewrite Hcall. reflexivity. }
        apply Forall_app. split; [exact Hp | exact (Hcodec _ _ He)].
      * run. intros Hn; inversion Hn. simpl.
        exact (encode_ascii_ascii_bytes _ _ Henc).
Qed.

End EncodedFormsAreASCII.

Section ComparisonProperties.
Context {X : ExternalTypes}.
Variable name_eq : Name -> Name -> bool.
Variable ip_eq : ip_value -> ip_value -> bool.
Variable hash : text -> Z.

Notation "a == c" := (py_eq name_eq ip_eq a c) (at level 70).
Notation "a != c" := (general_name_ne name_eq ip_eq a c) (at level 70).

Lemma general_name_eq_not_implemented (a c : general_name) :
  general_name_eq name_eq ip_eq a c = NotImplemented <-> class_of a <> class_of c.
Proof.
  destruct a, c; simpl; split; intros H; try discriminate; try reflexivity;
    try congruence.
Qed.

(** X13: [__eq__] between classes, and [__ne__].  [__eq__] answers
    [NotImplemented] exactly when the other operand is of another class;
    then the reflected [__eq__] does too, [==] is false and [!=] is true, in
    both orders.  For operands of one class [==] is the answer of [__eq__],
    and [!=] is its negation in every case. *)
Theorem comparison_across_classes (a c : general_name) :
  (general_name_eq name_eq ip_eq a c = NotImplemented
   <-> class_of a <> class_of c) /\
  (class_of a <> class_of c ->
   (a == c) = false /\ (c == a) = false
   /\ (a != c) = true /\ (c != a) = true) /\
  (class_of a = class_of c ->
   general_name_eq name_eq ip_eq a c = Equal (a == c)) /\
  (a != c) = negb (a == c).
Proof.
  split; [apply general_name_eq_not_implemented |].
  split; [| split; [| reflexivity]].
  - intros Hclass. unfold general_name_ne, py_eq.
    rewrite (proj2 (general_name_eq_not_implemented a c) Hclass).
    rewrite (proj2 (general_name_eq_not_implemented c a)) by congruence.
    repeat split.
  - intros Hclass. unfold py_eq.
    destruct (general_name_eq name_eq ip_eq a c) eqn:Heq; [reflexivity |].
    apply general_name_eq_not_implemented in Heq. contradiction.
Qed.

(** X14: on the three classes that compare text or bytes, [==] is an
    equivalence: every such instance equals itself, [==] gives the same
    answer in both orders whatever the other operand is, and it is
    transitive. *)
Theorem text_like_equality_is_equivalence (a : general_name) :
  text_like (class_of a) = true ->
  (a == a) = true /\
  (forall c, (a == c) = (c == a)) /\
  (forall c d, (a == c) = true -> (c == d) = true -> (a == d) = true).
Proof.
  intros Ha. split; [| split].
  - destruct a; try discriminate Ha; unfold py_eq; simpl;
      apply bool_decide_eq_true_2; reflexivity.
  - intros c. destruct a; try discriminate Ha; destruct c; unfold py_eq; simpl;
      try reflexivity; apply bool_decide_ext; split; congruence.
  - intros c d.
    destruct a; try discriminate Ha; destruct c; unfold py_eq; simpl;
      try discriminate; destruct d; simpl; try discriminate;
      intros H1 H2; apply bool_decide_eq_true_1 in H1, H2;
      apply bool_decide_eq_true_2; congruence.
Qed.

(** X15: equal names hash alike.  For [RFC822Name] and
    [UniformResourceIdentifier], two instances that [__eq__] calls equal
    have the same [__hash__], and the hash does not depend on the encoded
    form. *)
Theorem equal_names_hash_alike :
  (forall n1 n2 : RFC822Name,
     RFC822Name_eq n1 (IsRFC822Name n2) = Equal true ->
     RFC822Name_hash hash n1 = RFC822Name_hash hash n2) /\
  (forall n1 n2 : UniformResourceIdentifier,
     UniformResourceIdentifier_eq n1 (IsUniformResourceIdentifier n2) = Equal true ->
     UniformResourceIdentifier_hash hash n1 = UniformResourceIdentifier_hash hash n2) /\
  (forall v e1 e2,
     RFC822Name_hash hash {| RFC822Name_value := v; RFC822Name_encoded := e1 |}
     = RFC822Name_hash hash {| RFC822Name_value := v; RFC822Name_encoded := e2 |}) /\
  (forall v e1 e2,
     UniformResourceIdentifier_hash hash
       {| UniformResourceIdentifier_value := v;
          UniformResourceIdentifier_encoded := e1 |}
     = UniformResourceIdentifier_hash hash
         {| UniformResourceIdentifier_value := v;
            UniformResourceIdentifier_encoded := e2 |}).
Proof.
  split; [| split; [| split; reflexivity]].
  - intros n1 n2 Heq. inversion Heq as [Hb].
    unfold RFC822Name_hash. rewrite (bool_decide_eq_true_1 _ Hb). reflexivity.
  - intros n1 n2 Heq. inversion Heq as [Hb].
    unfold UniformResourceIdentifier_hash.
    rewrite (bool_decide_eq_true_1 _ Hb). reflexivity.
Qed.

End ComparisonProperties.

(** * Runs on the reference libraries *)

#[local] Existing Instance reference_types.
#[local] Existing Instance reference_libraries.

(** The reference decoder drops empty labels at the front, so a leading
    period does not change its answer. *)
Lemma reference_decode_leading_dot (d : bytes) :
  RefIdna.decode (b "." ++ d) = RefIdna.decode d.
Proof.
  unfold RefIdna.decode. simpl decode_ascii.
  destruct (decode_ascii d) as [e | t]; reflexivity.
Qed.



(** Two texts that pass the display-name test and are refused all the
    same: the codec refuses the domain of ["user@exa_mple.com"], and the
    bare label ["café"] has no ASCII encoding. *)
Example rfc822_name_refused_domain :
  parseaddr (u "user@exa_mple.com") = ([], u "user@exa_mple.com")
  /\ outcome (RFC822Name_init (PyText (u "user@exa_mple.com"))) = inl IDNAError.
Proof. split; vm_compute; reflexivity. Qed.

Example rfc822_name_refused_label :
  parseaddr (u "caf" ++ [233]) = ([], u "caf" ++ [233])
  /\ outcome (RFC822Name_init (PyText (u "caf" ++ [233]))) = inl UnicodeEncodeError.
Proof. split; vm_compute; reflexivity. Qed.

(** C3, as written, fails at ["user@exa_mple.com"]: [parseaddr] gives no
    display name and the whole text as address, and the constructor
    raises [IDNAError], a [ValueError]. *)
Lemma rfc822_name_codec_error_is_value_error :
  ~ @rfc822_value_error_iff_name_or_empty reference_types reference_libraries.
Proof.
  intros Hclaim.
  destruct (proj1 (Hclaim (u "user@exa_mple.com"))) as [Hname | Haddress].
  - exists IDNAError. split; vm_compute; reflexivity.
  - apply Hname. vm_compute. reflexivity.
  - vm_compute in Haddress. discriminate Haddress.
Qed.

(** C3 at ["Name <user@example.com>"], at the empty text, at ["café"] and
    at a byte string. *)
Lemma rfc822_name_rejection_witness :
  outcome (@RFC822Name_init reference_types reference_libraries
             (PyText (u "Name <user@example.com>")))
    = inl (ValueError "Invalid rfc822name value")
  /\ outcome (@RFC822Name_init reference_types reference_libraries (PyText (u "")))
     = inl (ValueError "Invalid rfc822name value")
  /\ (UnicodeEncodeError = UnicodeEncodeError \/ UnicodeEncodeError = IDNAError)
  /\ outcome (@RFC822Name_init reference_types reference_libraries
                (PyBytes (b "user@example.com")))
     = inl (TypeError "value must be a unicode string").
Proof.
  destruct (@rfc822_name_rejection reference_types reference_libraries)
    as (Hiff & _ & Hpass & _ & Hkind).
  split; [| split; [| split]].
  - apply Hiff. left. vm_compute. discriminate.
  - apply Hiff. right. vm_compute. reflexivity.
  - apply (Hpass (u "caf" ++ [233])).
    + vm_compute. reflexivity.
    + vm_compute. intros [Hname | Haddress]; [apply Hname; reflexivity | discriminate].
  - apply Hkind. intros (v & Hv). discriminate Hv.
Defined.

(** C4 at ["user@café.com"] and at ["postmaster"]. *)
Lemma rfc822_name_encoded_form_witness :
  outcome (@RFC822Name_init reference_types reference_libraries
             (PyText (u "user@" ++ cafe_com)))
    = inr {| RFC822Name_value := u "user@" ++ cafe_com;
             RFC822Name_encoded := b "user@xn--caf-dma.com" |}
  /\ outcome (@RFC822Name_init reference_types reference_libraries
                (PyText (u "postmaster")))
     = inr {| RFC822Name_value := u "postmaster";
              RFC822Name_encoded := b "postmaster" |}.
Proof.
  split.
  - destruct (@rfc822_name_encoded_form reference_types reference_libraries
                (u "user@" ++ cafe_com) (u "user@" ++ cafe_com))
      as (_ & Hdomain & _).
    + vm_compute. reflexivity.
    + vm_compute. discriminate.
    + etransitivity; [apply (Hdomain (u "user") cafe_com) |].
      * reflexivity.
      * by_decision.
      * by_decision.
      * vm_compute. reflexivity.
  - destruct (@rfc822_name_encoded_form reference_types reference_libraries
                (u "postmaster") (u "postmaster"))
      as (Hlabel & _ & _).
    + vm_compute. reflexivity.
    + vm_compute. discriminate.
    + etransitivity; [apply Hlabel |].
      * by_decision.
      * vm_compute. reflexivity.
Defined.

(** C5 at ["*.café.com"], at [".café.com"] and at ["example.com"]. *)
Lemma dns_name_construction_witness :
  outcome (@DNSName_init reference_types reference_libraries
             (PyText (u "*." ++ cafe_com)))
    = inr {| DNSName_bytes_value := b "*.xn--caf-dma.com" |}
  /\ encoder_calls (trace (@DNSName_init reference_types reference_libraries
                             (PyText (u "." ++ cafe_com))))
     = [cafe_com]
  /\ outcome (@DNSName_init reference_types reference_libraries
                (PyText (u "example.com")))
     = inr {| DNSName_bytes_value := b "example.com" |}
  /\ fails_with is_TypeError
       (@DNSName_init reference_types reference_libraries (PyInt 7)).
Proof.
  destruct (@dns_name_construction reference_types reference_libraries)
    as (Hprefix & Hascii & _ & Hkind).
  split; [| split; [| split]].
  - destruct (Hprefix "*."%string cafe_com) as (Hout & _ & _).
    + left. reflexivity.
    + exists UnicodeEncodeError. vm_compute. reflexivity.
    + etransitivity; [exact Hout |]. vm_compute. reflexivity.
  - destruct (Hprefix "."%string cafe_com) as (_ & Hcalls & _).
    + right. reflexivity.
    + exists UnicodeEncodeError. vm_compute. reflexivity.
    + exact Hcalls.
  - destruct (Hascii (u "example.com") (b "example.com")) as (Hout & _ & _).
    + vm_compute. reflexivity.
    + exact Hout.
  - apply Hkind. split; intros (w & Hw); discriminate Hw.
Defined.

(** C6 at a parse with host ["café.com"] and port 0. *)
Lemma uri_port_zero_dropped_witness :
  outcome (@encoded_netloc reference_libraries
             {| scheme := u "https"; netloc := cafe_com ++ u ":0";
                path := u "/path"; params := []; query := []; fragment := [];
                hostname := Some cafe_com; port := PortInt 0 |})
    = inr (u "xn--caf-dma.com").
Proof.
  destruct (@uri_port_zero_dropped reference_types reference_libraries)
    as (Hzero & _).
  etransitivity; [apply (Hzero _ cafe_com) |].
  - reflexivity.
  - vm_compute. discriminate.
  - reflexivity.
  - vm_compute. reflexivity.
Defined.

(** C7, as written, fails for [DNSName] under both readings.  The text
    ["café.com"] and the bytes [b"xn--caf-dma.com"] are different arguments
    and give equal instances; the instances holding [b"EXAMPLE.com"] and
    [b"example.com"] return the same text from [value] and are not
    equal. *)
Lemma dns_name_equality_not_on_logical_value :
  ~ @dns_names_equal_iff_arguments_equal reference_types reference_libraries
  /\ ~ @dns_names_equal_iff_values_equal reference_types reference_libraries.
Proof.
  split; intros Hclaim.
  - pose (n := {| DNSName_bytes_value := b "xn--caf-dma.com" |}).
    assert (PyText cafe_com = PyBytes (b "xn--caf-dma.com")) as Heq;
      [| discriminate Heq].
    apply (Hclaim (PyText cafe_com) (PyBytes (b "xn--caf-dma.com")) n n);
      vm_compute; reflexivity.
  - assert (@DNSName_eq reference_types
              {| DNSName_bytes_value := b "EXAMPLE.com" |}
              (IsDNSName {| DNSName_bytes_value := b "example.com" |})
            = Equal true) as Heq; [| vm_compute in Heq; discriminate Heq].
    apply Hclaim. vm_compute. reflexivity.
Qed.

(** C7 at two [RFC822Name] records with one value and different encoded
    forms, and at the [DNSName]s built from ["café.com"] and from
    [b"xn--caf-dma.com"]. *)
Lemma text_like_names_equality_witness :
  @RFC822Name_eq reference_types
    {| RFC822Name_value := u "user@example.com";
       RFC822Name_encoded := b "user@example.com" |}
    (IsRFC822Name {| RFC822Name_value := u "user@example.com";
                     RFC822Name_encoded := b "USER@example.com" |})
    = Equal true
  /\ forall n1 n2,
       outcome (DNSName_init (PyText cafe_com)) = inr n1 ->
       outcome (DNSName_init (PyBytes (b "xn--caf-dma.com"))) = inr n2 ->
       DNSName_eq n1 (IsDNSName n2) = Equal true.
Proof.
  destruct (@text_like_names_equality reference_types) as (Hrfc & _ & Hdns).
  split.
  - apply Hrfc. reflexivity.
  - intros n1 n2 H1 H2. apply Hdns.
    vm_compute in H1, H2. congruence.
Defined.

(** C8 at a distinguished name, an object identifier, the four address
    kinds, and at text, which all three constructors refuse. *)
Lemma kind_checked_constructors_witness :
  @DirectoryName_init reference_types (PyName "CN=example"%string)
    = ([], inr {| DirectoryName_value := "CN=example"%string |})
  /\ @RegisteredID_init reference_types (PyObjectIdentifier [2; 5; 4; 3])
     = ([], inr {| RegisteredID_value := [2; 5; 4; 3] |})
  /\ succeeds (@IPAddress_init reference_types (PyIP (IPv4AddressValue 2130706433)))
  /\ succeeds (@IPAddress_init reference_types (PyIP (IPv6AddressValue 1)))
  /\ succeeds (@IPAddress_init reference_types (PyIP (IPv4NetworkValue (167772160, 8))))
  /\ succeeds (@IPAddress_init reference_types (PyIP (IPv6NetworkValue (0, 64))))
  /\ fails_with is_TypeError (@DirectoryName_init reference_types (PyText (u "CN=example")))
  /\ fails_with is_TypeError (@RegisteredID_init reference_types (PyText (u "2.5.4.3")))
  /\ fails_with is_TypeError (@IPAddress_init reference_types (PyText (u "127.0.0.1"))).
Proof.
  pose proof (fun v => @kind_checked_constructors reference_types v) as H.
  split.
  { apply (proj1 (proj2 (H (@PyName reference_types "CN=example"%string)))).
    reflexivity. }
  split.
  { destruct (H (@PyObjectIdentifier reference_types [2; 5; 4; 3]))
      as (_ & _ & _ & Hoid & _).
    apply Hoid. reflexivity. }
  split.
  { destruct (H (PyIP (@IPv4AddressValue reference_types 2130706433)))
      as (_ & _ & _ & _ & _ & Hip).
    eexists. rewrite (Hip _ eq_refl). reflexivity. }
  split.
  { destruct (H (PyIP (@IPv6AddressValue reference_types 1)))
      as (_ & _ & _ & _ & _ & Hip).
    eexists. rewrite (Hip _ eq_refl). reflexivity. }
  split.
  { destruct (H (PyIP (@IPv4NetworkValue reference_types (167772160, 8))))
      as (_ & _ & _ & _ & _ & Hip).
    eexists. rewrite (Hip _ eq_refl). reflexivity. }
  split.
  { destruct (H (PyIP (@IPv6NetworkValue reference_types (0, 64))))
      as (_ & _ & _ & _ & _ & Hip).
    eexists. rewrite (Hip _ eq_refl). reflexivity. }
  split.
  { apply (H (PyText (u "CN=example"))). intros (n & Hn). discriminate Hn. }
  split.
  { apply (H (PyText (u "2.5.4.3"))). intros (n & Hn). discriminate Hn. }
  apply (H (PyText (u "127.0.0.1"))). intros (n & Hn). discriminate Hn.
Defined.

(** C9 at the type-id 1.2.3.4 with a three-byte payload, and at a text
    payload. *)
Lemma other_name_construction_and_equality_witness :
  @OtherName_init reference_types (PyObjectIdentifier [1; 2; 3; 4]) (PyBytes (b "abc"))
    = ([], inr {| OtherName_type_id := [1; 2; 3; 4]; OtherName_value := b "abc" |})
  /\ fails_with is_TypeError
       (@OtherName_init reference_types (PyObjectIdentifier [1; 2; 3; 4])
          (PyText (u "abc")))
  /\ @OtherName_eq reference_types
       {| OtherName_type_id := [1; 2; 3; 4]; OtherName_value := b "abc" |}
       (IsOtherName {| OtherName_type_id := [1; 2; 3; 4]; OtherName_value := b "abc" |})
     = Equal true.
Proof.
  destruct (@other_name_construction_and_equality reference_types)
    as (Hstore & _ & Hkind & Heq).
  split; [apply Hstore |]. split.
  - apply Hkind. right. intros (d & Hd). discriminate Hd.
  - apply Heq. split; reflexivity.
Defined.

(** ** Runs for the further properties *)

(** The reference encoder returns ASCII bytes. *)
Lemma reference_encode_ascii (t : text) (r : bytes) :
  RefIdna.encode t = Some r -> ascii_bytes r.
Proof.
  unfold RefIdna.encode.
  destruct (RefIdna.domain_labels t) as [[labels trailing_dot]|];
    simpl; [| discriminate].
  destruct (mapM _ labels) as [result|]; simpl; [| discriminate].
  destruct (RefIdna.valid_string_length _ _); [| discriminate].
  destruct (encode_ascii _) as [|s] eqn:Henc; simpl; [discriminate |].
  intros Hr; inversion Hr; subst. exact (encode_ascii_ascii_bytes _ _ Henc).
Qed.

(** X1 at ["café.com"]. *)
Lemma dns_name_plain_unicode_text_witness :
  outcome (DNSName_init (PyText cafe_com))
    = inr {| DNSName_bytes_value := b "xn--caf-dma.com" |}
  /\ encoder_calls (trace (DNSName_init (PyText cafe_com))) = [cafe_com].
Proof.
  destruct (@dns_name_plain_unicode_text reference_types reference_libraries cafe_com)
    as (Hout & Hcalls).
  - exists UnicodeEncodeError. vm_compute. reflexivity.
  - vm_compute. reflexivity.
  - vm_compute. reflexivity.
  - split; [| exact Hcalls]. etransitivity; [exact Hout |]. vm_compute. reflexivity.
Defined.

(** X2 at ["café.com"], accepted, and at ["café_.com"], refused. *)
Lemma dns_name_warns_on_accepted_text_witness :
  warnings (trace (DNSName_init (PyText cafe_com))) = [DeprecatedIn21]
  /\ warnings (trace (DNSName_init (PyText (u "caf" ++ [233] ++ u "_.com")))) = [].
Proof.
  destruct (@dns_name_warns_on_accepted_text reference_types reference_libraries)
    as (Haccepted & Hrefused & _).
  split.
  - apply (Haccepted cafe_com {| DNSName_bytes_value := b "xn--caf-dma.com" |}).
    vm_compute. reflexivity.
  - apply (Hrefused (u "caf" ++ [233] ++ u "_.com") IDNAError).
    vm_compute. reflexivity.
Defined.

(** X3 at [b"xn--caf-dma.com"]. *)
Lemma dns_name_value_plain_witness :
  outcome (DNSName_value {| DNSName_bytes_value := b "xn--caf-dma.com" |})
    = inr cafe_com
  /\ decoder_calls (trace (DNSName_value {| DNSName_bytes_value := b "xn--caf-dma.com" |}))
     = [b "xn--caf-dma.com"].
Proof.
  destruct (@dns_name_value_plain reference_libraries (b "xn--caf-dma.com"))
    as (Hout & Hcalls).
  - discriminate.
  - vm_compute. reflexivity.
  - vm_compute. reflexivity.
  - split; [| exact Hcalls]. etransitivity; [exact Hout |]. vm_compute. reflexivity.
Defined.

(** X4 at [b"a.*.com"], which the decoder refuses, and at the empty
    value. *)
Lemma dns_name_value_events_witness :
  (exists arg,
     decoder_calls (trace (DNSName_value {| DNSName_bytes_value := b "a.*.com" |}))
     = [arg])
  /\ decoder_calls (trace (DNSName_value {| DNSName_bytes_value := [] |})) = [].
Proof.
  split.
  - destruct (@dns_name_value_events reference_libraries
                {| DNSName_bytes_value := b "a.*.com" |})
      as (_ & _ & _ & _ & Hcall).
    apply Hcall. discriminate.
  - destruct (@dns_name_value_events reference_libraries
                {| DNSName_bytes_value := [] |})
      as (_ & _ & _ & Hnone & _).
    apply Hnone. reflexivity.
Defined.

(** X5 at [b"*.xn--caf-dma.com"], which comes back, and at
    [b"*.EXAMPLE.com"], which comes back in lower case. *)
Lemma dns_name_prefix_round_trip_witness :
  outcome (DNSName_init (PyText (u "*." ++ cafe_com)))
    = inr {| DNSName_bytes_value := b "*." ++ b "xn--caf-dma.com" |}
  /\ outcome (DNSName_value {| DNSName_bytes_value := b "*." ++ b "EXAMPLE.com" |})
     = inr (u "*." ++ u "example.com")
  /\ outcome (DNSName_init (PyText (u "*." ++ u "example.com")))
     = inr {| DNSName_bytes_value := b "*.example.com" |}.
Proof.
  split; [| split].
  - destruct (@dns_name_prefix_round_trip reference_types reference_libraries
                "*."%string (b "xn--caf-dma.com") cafe_com)
      as (_ & _ & Hexact).
    + left. reflexivity.
    + exact reference_decode_leading_dot.
    + vm_compute. reflexivity.
    + apply Hexact. right. split; [exists UnicodeEncodeError |]; vm_compute; reflexivity.
  - destruct (@dns_name_prefix_round_trip reference_types reference_libraries
                "*."%string (b "EXAMPLE.com") (u "example.com"))
      as (Hvalue & _ & _).
    + left. reflexivity.
    + exact reference_decode_leading_dot.
    + vm_compute. reflexivity.
    + exact Hvalue.
  - destruct (@dns_name_prefix_round_trip reference_types reference_libraries
                "*."%string (b "EXAMPLE.com") (u "example.com"))
      as (_ & Hinit & _).
    + left. reflexivity.
    + exact reference_decode_leading_dot.
    + vm_compute. reflexivity.
    + etransitivity; [exact Hinit |]. vm_compute. reflexivity.
Defined.

(** X6 at ["a@b"@example.com] (with its quotes): the local part is cut at
    the ["@"] inside the quotes, and the codec is asked to encode the letter
    b with the closing quotation mark, which it refuses. *)
Lemma rfc822_name_second_at_sign_witness :
  let v := [34] ++ u "a@b" ++ [34] ++ u "@example.com" in
  outcome (@RFC822Name_init reference_types quoted_libraries (PyText v))
    = inl IDNAError
  /\ forall arg,
       arg ∈ encoder_calls
               (trace (@RFC822Name_init reference_types quoted_libraries (PyText v))) ->
       arg = u "b" ++ [34].
Proof.
  intros v.
  destruct (@rfc822_name_second_at_sign reference_types quoted_libraries
              v ([34] ++ u "a") (u "b" ++ [34]) (u "example.com"))
    as (Hout & Hcalls).
  - vm_compute. reflexivity.
  - by_decision.
  - by_decision.
  - split; [| exact Hcalls]. etransitivity; [exact Hout |]. vm_compute. reflexivity.
Defined.

(** X7 at ["Name <user@example.com>"], refused before any encoding. *)
Lemma rfc822_name_events_witness :
  trace (RFC822Name_init (PyText (u "Name <user@example.com>"))) = []
  /\ trace (RFC822Name_init (PyBytes (b "user@example.com"))) = [].
Proof.
  split.
  - destruct (@rfc822_name_events reference_types reference_libraries
                (PyText (u "Name <user@example.com>")))
      as (_ & _ & _ & _ & Hearly).
    apply (Hearly (u "Name <user@example.com>")); [reflexivity |].
    left. vm_compute. discriminate.
  - destruct (@rfc822_name_events reference_types reference_libraries
                (PyBytes (b "user@example.com")))
      as (_ & _ & _ & Hkind & _).
    apply Hkind. intros (v & Hv). discriminate Hv.
Defined.

(** X8 at ["user@example.com"] with and without a blank in front: one
    encoded form, two unequal names. *)
Lemma rfc822_name_encoded_of_parse_witness :
  let n1 := {| RFC822Name_value := u " user@example.com";
               RFC822Name_encoded := b "user@example.com" |} in
  let n2 := {| RFC822Name_value := u "user@example.com";
               RFC822Name_encoded := b "user@example.com" |} in
  outcome (RFC822Name_init (PyText (u " user@example.com"))) = inr n1
  /\ outcome (RFC822Name_init (PyText (u "user@example.com"))) = inr n2
  /\ RFC822Name_encoded n1 = RFC822Name_encoded n2
  /\ RFC822Name_eq n1 (IsRFC822Name n2) <> Equal true.
Proof.
  intros n1 n2.
  assert (H1 : outcome (RFC822Name_init (PyText (u " user@example.com"))) = inr n1)
    by (vm_compute; reflexivity).
  assert (H2 : outcome (RFC822Name_init (PyText (u "user@example.com"))) = inr n2)
    by (vm_compute; reflexivity).
  destruct (@rfc822_name_encoded_of_parse reference_types reference_libraries
              (u " user@example.com") (u "user@example.com") n1 n2)
    as (Henc & Heq); [vm_compute; reflexivity | exact H1 | exact H2 |].
  split; [exact H1 |]. split; [exact H2 |]. split; [exact Henc |].
  intros Hequal. apply Heq in Hequal. vm_compute in Hequal. discriminate Hequal.
Defined.

(** X9 at ["https://user:pw@Example.COM:8443/p?q#f"]: the user
    information is gone and the host is in lower case. *)
Lemma uri_rebuilt_from_host_and_port_witness :
  let v := u "https://user:pw@Example.COM:8443/p?q#f" in
  outcome (UniformResourceIdentifier_init (PyText v))
    = inr {| UniformResourceIdentifier_value := v;
             UniformResourceIdentifier_encoded :=
               b "https://example.com:8443/p?q#f" |}.
Proof.
  intros v.
  destruct (@uri_rebuilt_from_host_and_port reference_types reference_libraries
              v {| scheme := u "https"; netloc := u "user:pw@Example.COM:8443";
                   path := u "/p"; params := []; query := u "q";
                   fragment := u "f"; hostname := Some (u "example.com");
                   port := PortInt 8443 |}
              (u "example.com") (b "example.com") (u "example.com")
              (u "example.com:8443"))
    as (Hout & _).
  - vm_compute. reflexivity.
  - reflexivity.
  - vm_compute. discriminate.
  - vm_compute. reflexivity.
  - vm_compute. reflexivity.
  - right. exists 8443%Z. split; [reflexivity |]. split; [lia |].
    vm_compute. reflexivity.
  - etransitivity; [exact Hout |]. vm_compute. reflexivity.
Defined.

(** X10 at ["http://:99999/"], accepted, and at
    ["http://example.com:99999/"], refused. *)
Lemma uri_port_read_only_with_host_witness :
  outcome (UniformResourceIdentifier_init (PyText (u "http://:99999/")))
    = inr {| UniformResourceIdentifier_value := u "http://:99999/";
             UniformResourceIdentifier_encoded := b "http:///" |}
  /\ fails_with is_ValueError
       (UniformResourceIdentifier_init (PyText (u "http://example.com:99999/"))).
Proof.
  split.
  - destruct (@uri_port_read_only_with_host reference_types reference_libraries
                (u "http://:99999/")
                {| scheme := u "http"; netloc := u ":99999"; path := u "/";
                   params := []; query := []; fragment := [];
                   hostname := None; port := PortInvalid |})
      as (Hnohost & _); [vm_compute; reflexivity |].
    rewrite Hnohost by (left; reflexivity). vm_compute. reflexivity.
  - destruct (@uri_port_read_only_with_host reference_types reference_libraries
                (u "http://example.com:99999/")
                {| scheme := u "http"; netloc := u "example.com:99999";
                   path := u "/"; params := []; query := []; fragment := [];
                   hostname := Some (u "example.com"); port := PortInvalid |})
      as (_ & Hinvalid); [vm_compute; reflexivity |].
    apply (Hinvalid (u "example.com")); [reflexivity | | reflexivity].
    vm_compute. discriminate.
Defined.

(** X11 at ["https://example.com/café"], whose path has no ASCII
    encoding, and at a byte string. *)
Lemma uri_failures_witness :
  is_ValueError UnicodeEncodeError = true
  /\ UniformResourceIdentifier_init (PyBytes (b "https://example.com/"))
     = ([], inl (TypeError "value must be a unicode string")).
Proof.
  destruct (@uri_failures reference_types reference_libraries)
    as (Hkind & _ & Hvalue & _).
  split.
  - apply (Hvalue (u "https://example.com/caf" ++ [233])
                  {| scheme := u "https"; netloc := u "example.com";
                     path := u "/caf" ++ [233]; params := []; query := [];
                     fragment := []; hostname := Some (u "example.com");
                     port := PortNone |});
      vm_compute; reflexivity.
  - apply Hkind. intros (v & Hv). discriminate Hv.
Defined.

(** X12 at ["user@café.com"] and at ["*.café.com"]. *)
Lemma encoded_forms_are_ascii_witness :
  ascii_bytes (b "user@xn--caf-dma.com") /\ ascii_bytes (b "*.xn--caf-dma.com").
Proof.
  destruct (@encoded_forms_are_ascii reference_types reference_libraries)
    as (_ & Hcodec).
  destruct (Hcodec reference_encode_ascii) as (Hrfc & Hdns).
  split.
  - apply (Hrfc (PyText (u "user@" ++ cafe_com))
                {| RFC822Name_value := u "user@" ++ cafe_com;
                   RFC822Name_encoded := b "user@xn--caf-dma.com" |}).
    vm_compute. reflexivity.
  - apply (Hdns (u "*." ++ cafe_com)
                {| DNSName_bytes_value := b "*.xn--caf-dma.com" |}).
    vm_compute. reflexivity.
Defined.

(** X13 at an [RFC822Name] and a [DNSName] that hold the same
    characters. *)
Lemma comparison_across_classes_witness :
  let a := IsRFC822Name {| RFC822Name_value := u "example.com";
                           RFC822Name_encoded := b "example.com" |} in
  let c := IsDNSName {| DNSName_bytes_value := b "example.com" |} in
  py_eq reference_name_eq reference_ip_eq a c = false
  /\ general_name_ne reference_name_eq reference_ip_eq c a = true.
Proof.
  intros a c.
  destruct (@comparison_across_classes reference_types
              reference_name_eq reference_ip_eq a c)
    as (_ & Hclass & _).
  destruct Hclass as (Heq & _ & _ & Hne); [discriminate |].
  split; [exact Heq | exact Hne].
Defined.

(** X14 at three [DNSName]s with one byte value. *)
Lemma text_like_equality_is_equivalence_witness :
  let a := IsDNSName {| DNSName_bytes_value := b "example.com" |} in
  py_eq reference_name_eq reference_ip_eq a a = true.
Proof.
  intros a.
  destruct (@text_like_equality_is_equivalence reference_types
              reference_name_eq reference_ip_eq a eq_refl)
    as (Hrefl & _ & Htrans).
  exact (Htrans a a Hrefl Hrefl).
Defined.

(** X15 at two [RFC822Name] records with one value and different encoded
    forms. *)
Lemma equal_names_hash_alike_witness :
  RFC822Name_hash reference_hash
    {| RFC822Name_value := u "user@example.com";
       RFC822Name_encoded := b "user@example.com" |}
  = RFC822Name_hash reference_hash
      {| RFC822Name_value := u "user@example.com";
         RFC822Name_encoded := b "USER@example.com" |}.
Proof.
  destruct (@equal_names_hash_alike reference_types reference_hash)
    as (Hrfc & _).
  apply Hrfc. reflexivity.
Defined.
